(** * Feature-engineering pipeline of the test-selection service

    A shallow embedding of [cron/process_data.py]: the path-similarity
    scorers, the two windowed-count synthesizers, the per-pull-request
    pair expansion, the checkpoint lookback and the dataset write,
    together with the properties the design document states about them.

    Conventions of the embedding.
    - A Python [str] is a [string]; [None] where a value may be absent is
      the [None] of an [option].
    - A [datetime] is an instant counted in microseconds, a [timedelta]
      a signed number of microseconds; subtraction and comparison are those
      of the integers. Instants range over all integers: the bounds of
      Python's calendar (years 1 to 9999) are not modelled.
    - The dicts that become dataset rows are ordered association lists,
      because the column order of the written file is the insertion order
      of their keys. The two history indices are only ever looked up by key
      and are finite maps.
    - A query result is the list of table rows that satisfy its [WHERE]
      clause. *)

From Stdlib Require Import ZArith List Ascii String Bool Lia.
From stdpp Require Import base decidable option list strings gmap.

Local Open Scope string_scope.
Local Open Scope Z_scope.

(** ** Python primitives used by the module *)

Module Py.

(** [s.split(sep)] for a one-character separator, and [re.split] for a
    character class: the pieces between consecutive separator
    characters, empty pieces included. *)
Fixpoint split_on (is_sep : ascii -> bool) (s : string) : list string :=
  match s with
  | EmptyString => [EmptyString]
  | String c rest =>
      if is_sep c then EmptyString :: split_on is_sep rest
      else match split_on is_sep rest with
           | piece :: pieces => String c piece :: pieces
           | [] => [String c EmptyString]
           end
  end.

Definition is_slash (c : ascii) : bool := Ascii.eqb c "/"%char.
Definition is_dot (c : ascii) : bool := Ascii.eqb c "."%char.

(** [s.split("/")] *)
Definition str_split_slash (s : string) : list string := split_on is_slash s.

(** [re.split(r"[/.]", s)] *)
Definition re_split_slash_dot (s : string) : list string :=
  split_on (fun c => is_slash c || is_dot c) s.

(** [len(l)] as a Python integer. *)
Definition len {A} (l : list A) : Z := Z.of_nat (List.length l).

(** [s.rfind(c)]: the highest index holding [c], or -1. *)
Fixpoint rfind_from (c : ascii) (s : string) (i acc : Z) : Z :=
  match s with
  | EmptyString => acc
  | String x rest =>
      rfind_from c rest (i + 1) (if Ascii.eqb x c then i else acc)
  end.

Definition rfind (c : ascii) (s : string) : Z := rfind_from c s 0 (-1).

(** [s[i:j]] for 0 <= i. *)
Definition slice (i j : Z) (s : string) : string :=
  String.substring (Z.to_nat i) (Z.to_nat (j - i)) s.

Fixpoint all_dots (s : string) : bool :=
  match s with
  | EmptyString => true
  | String x rest => is_dot x && all_dots rest
  end.

(** [os.path.splitext] on a POSIX path: the extension starts at the last
    dot of the last component, unless that component has only dots before
    it. *)
Definition splitext (p : string) : string * string :=
  let sepIndex := rfind "/"%char p in
  let dotIndex := rfind "."%char p in
  if (sepIndex <? dotIndex)
     && negb (all_dots (slice (sepIndex + 1) dotIndex p))
  then (slice 0 dotIndex p, slice dotIndex (Z.of_nat (String.length p)) p)
  else (p, EmptyString).

(** Truthiness of an optional string: [None] and [""] are falsy. *)
Definition truthy (s : option string) : bool :=
  match s with
  | Some (String _ _) => true
  | _ => false
  end.

End Py.

(** ** Path similarity scorer *)

(** One entry of a changed-file collection: a record with a [filename]. *)
Record changed_file_entry := { filename : string }.

(** What [calculate_minimal_distance] accepts as its first argument:
    nothing, one path, or a collection of entries. *)
Inductive changed_files_arg :=
| NoFiles
| OnePath (p : string)
| Entries (l : list changed_file_entry).

Definition changed_truthy (c : changed_files_arg) : bool :=
  match c with
  | NoFiles => false
  | OnePath p => Py.truthy (Some p)
  | Entries [] => false
  | Entries (_ :: _) => true
  end.

(** The inner [for i in range(...)] loop with its [break]. The indices are
    always in range of both lists; the last branch is never reached. *)
Fixpoint prefix_loop (indices : list nat) (test_splits changed_splits : list string)
    (distance : Z) : Z :=
  match indices with
  | [] => distance
  | i :: rest =>
      match test_splits !! i, changed_splits !! i with
      | Some t, Some c =>
          if String.eqb t c
          then prefix_loop rest test_splits changed_splits (distance - 2)
          else distance
      | _, _ => distance
      end
  end.

(** The body of the outer loop for one entry. *)
Definition entry_distance (test_file_path_splits : list string)
    (changed_file_entry : changed_file_entry) : Z :=
  let changed_file_path_splits := Py.str_split_slash (filename changed_file_entry) in
  let distance := Py.len changed_file_path_splits + Py.len test_file_path_splits in
  prefix_loop
    (seq 0 (Z.to_nat (Z.min (Py.len changed_file_path_splits - 1)
                            (Py.len test_file_path_splits - 1))))
    test_file_path_splits changed_file_path_splits distance.

Definition calculate_minimal_distance (changed_file_path : changed_files_arg)
    (test_file_path : option string) : Z :=
  if negb (changed_truthy changed_file_path) || negb (Py.truthy test_file_path)
  then 1000
  else
    let test_file_path_splits := Py.str_split_slash (default "" test_file_path) in
    let changed_files :=
      match changed_file_path with
      | OnePath p => [{| filename := p |}]
      | Entries l => l
      | NoFiles => []
      end in
    fold_left
      (fun min_distance changed_file_entry =>
         Z.min min_distance (entry_distance test_file_path_splits changed_file_entry))
      changed_files 1000.

(** Token set of a path: [set(token for token in re.split(r"[/.]", p) if token)]. *)
Definition tokens (p : string) : gset string :=
  list_to_set (filter (fun token => token <> "") (Py.re_split_slash_dot p)).

Definition calculate_common_tokens (changed_file_path test_file_path : option string) : Z :=
  if negb (Py.truthy changed_file_path) || negb (Py.truthy test_file_path)
  then 0
  else
    let changed_tokens := tokens (default "" changed_file_path) in
    let test_tokens := tokens (default "" test_file_path) in
    Z.of_nat (size (changed_tokens ∩ test_tokens)).

Definition get_test_run_key (test_case_file_path test_case_name : string) : string :=
  test_case_file_path ++ "::::" ++ test_case_name.

(** ** Dates *)

(** An instant, in microseconds. *)
Abbreviation datetime := Z (only parsing).

Definition microseconds_per_day : Z := 86400000000.

(** [timedelta(days=n)] *)
Definition timedelta (days : Z) : Z := days * microseconds_per_day.

(** ** Dicts with insertion order *)

Inductive pyval :=
| VStr (s : string)
| VInt (n : Z).

Definition pydict := list (string * pyval).

Fixpoint dict_get (key : string) (d : pydict) : option pyval :=
  match d with
  | [] => None
  | (k, v) :: rest => if String.eqb k key then Some v else dict_get key rest
  end.

(** [d[key] = value]: an existing key keeps its position, a new key goes
    last. *)
Fixpoint dict_set (key : string) (value : pyval) (d : pydict) : pydict :=
  match d with
  | [] => [(key, value)]
  | (k, v) :: rest =>
      if String.eqb k key then (k, value) :: rest
      else (k, v) :: dict_set key value rest
  end.

(** A dict display [{k1: v1, **d, ...}]: the items are inserted from left
    to right into an empty dict. *)
Definition dict_of_items (items : list (string * pyval)) : pydict :=
  fold_left (fun d item => dict_set (fst item) (snd item) d) items [].

Definition dict_keys (d : pydict) : list string := map fst d.

(** [d[key] += 1] on a key that holds an integer. The synthesizers only
    apply it to counters they have just initialised to 0. *)
Definition dict_incr (key : string) (d : pydict) : pydict :=
  match dict_get key d with
  | Some (VInt n) => dict_set key (VInt (n + 1)) d
  | _ => d
  end.

(** [d[key]] read as a string. *)
Definition dict_get_str (key : string) (d : pydict) : option string :=
  match dict_get key d with
  | Some (VStr s) => Some s
  | _ => None
  end.

(** ** Feature synthesizer *)

(** The three-key dict handed to [process_test_run]. *)
Record test_run := {
  test_case_file_path : string;
  test_case_name : string;
  actual_result : string
}.

Definition process_test_run (test_run : test_run) (pr_creation_date : datetime)
    (failed_run_dates : list datetime) : pydict :=
  let data := dict_of_items [
    ("test_case_file_path", VStr (test_case_file_path test_run));
    ("test_case_name", VStr (test_case_name test_run));
    ("actual_result",
      VInt (if String.eqb (actual_result test_run) "passed" then 0 else 1));
    ("failures_7_days", VInt 0);
    ("failures_14_days", VInt 0);
    ("failures_28_days", VInt 0)
  ] in
  fold_left
    (fun data failed_date =>
       let data :=
         if failed_date >? pr_creation_date - timedelta 7
         then dict_incr "failures_7_days" data else data in
       let data :=
         if failed_date >? pr_creation_date - timedelta 14
         then dict_incr "failures_14_days" data else data in
       if failed_date >? pr_creation_date - timedelta 28
       then dict_incr "failures_28_days" data else data)
    failed_run_dates data.

Definition process_file_change (file_change_path : string) (pr_creation_date : datetime)
    (file_change_dates : list datetime) : pydict :=
  let '(file_name, file_extension) := Py.splitext file_change_path in
  let data := dict_of_items [
    ("file_name", VStr file_name);
    ("file_extension",
      VStr (match file_extension with
            | String _ tail => tail
            | EmptyString => ""
            end));
    ("changes_3_days", VInt 0);
    ("changes_14_days", VInt 0)
  ] in
  fold_left
    (fun data change_date =>
       let data :=
         if change_date >=? pr_creation_date - timedelta 3
         then dict_incr "changes_3_days" data else data in
       if change_date >=? pr_creation_date - timedelta 14
       then dict_incr "changes_14_days" data else data)
    file_change_dates data.

(** ** Storage *)

Record pr_row := {
  pr_link : string;
  pr_repo_name : string;
  date_of_pr : datetime;
  list_of_authors : option (list string)
}.

Record file_change_row := {
  fc_pr_link : string;
  files_paths_changed : string
}.

Record test_run_row := {
  tr_pr_link : string;
  tr_test_case_file_path : string;
  tr_test_case_name : string;
  tr_actual_result : string
}.

Record checkpoint_row := {
  cp_repo_name : string;
  date_of_checkpoint : datetime
}.

Record database := {
  repositories : list string;
  repo_pr_details : list pr_row;
  pr_to_files_changed_mapping : list file_change_row;
  pr_to_test_runs_mapping : list test_run_row;
  checkpoint_details : list checkpoint_row
}.

(** SQL [MAX] over a column: no row, no value. *)
Definition sql_max (column : list datetime) : option datetime :=
  match column with
  | [] => None
  | d :: rest => Some (fold_left Z.max rest d)
  end.

(** [SELECT MAX(date_of_checkpoint) ... WHERE repo_name = %s] followed by
    the [latest_checkpoint] expression of [main]. *)
Definition latest_checkpoint (db : database) (repo_name : string) : option datetime :=
  sql_max
    (map date_of_checkpoint
       (filter (fun row => cp_repo_name row = repo_name) (checkpoint_details db))).

Definition start_date (checkpoint_date : datetime) : datetime :=
  checkpoint_date - timedelta 28.

(** The first query of [process_data_for_repo], in its two forms. *)
Definition fetch_pull_requests (db : database) (repo_name : string)
    (checkpoint_date : option datetime) : list pr_row :=
  match checkpoint_date with
  | Some checkpoint_date =>
      filter
        (fun pr => pr_repo_name pr = repo_name
                   /\ start_date checkpoint_date <= date_of_pr pr)
        (repo_pr_details db)
  | None =>
      filter (fun pr => pr_repo_name pr = repo_name) (repo_pr_details db)
  end.

(** [... WHERE pr_link IN pull_request_links] on the two mapping tables. *)
Definition fetch_files_changed (db : database) (pull_request_links : list string)
    : list file_change_row :=
  filter (fun row => fc_pr_link row ∈ pull_request_links)
         (pr_to_files_changed_mapping db).

Definition fetch_test_runs (db : database) (pull_request_links : list string)
    : list test_run_row :=
  filter (fun row => tr_pr_link row ∈ pull_request_links)
         (pr_to_test_runs_mapping db).

(** ** History aggregator *)

(** [next((pr["date_of_pr"] for pr in ... if pr["pr_link"] == link), None)] *)
Definition changed_date_of (pull_request_details : list pr_row) (link : string)
    : option datetime :=
  date_of_pr <$> head (filter (fun pr => pr_link pr = link) pull_request_details).

Definition history_append (key : string) (date : datetime)
    (history : gmap string (list datetime)) : gmap string (list datetime) :=
  <[key := (default [] (history !! key) ++ [date])%list]> history.

Definition history_touch (key : string) (history : gmap string (list datetime))
    : gmap string (list datetime) :=
  match history !! key with
  | None => <[key := []]> history
  | Some _ => history
  end.

Definition build_files_changed_history (pull_request_details : list pr_row)
    (pr_files_changed_data : list file_change_row) : gmap string (list datetime) :=
  fold_left
    (fun files_changed_history row =>
       let files_changed_history :=
         history_touch (files_paths_changed row) files_changed_history in
       match changed_date_of pull_request_details (fc_pr_link row) with
       | Some changed_date =>
           history_append (files_paths_changed row) changed_date files_changed_history
       | None => files_changed_history
       end)
    pr_files_changed_data ∅.

Definition build_test_runs_failure_history (pull_request_details : list pr_row)
    (pr_test_runs_data : list test_run_row) : gmap string (list datetime) :=
  fold_left
    (fun test_runs_failure_history row =>
       let key := get_test_run_key (tr_test_case_file_path row) (tr_test_case_name row) in
       let test_runs_failure_history := history_touch key test_runs_failure_history in
       if String.eqb (tr_actual_result row) "failed" then
         match changed_date_of pull_request_details (tr_pr_link row) with
         | Some changed_date => history_append key changed_date test_runs_failure_history
         | None => test_runs_failure_history
         end
       else test_runs_failure_history)
    pr_test_runs_data ∅.

(** ** Dataset file *)

Record csv_file := {
  csv_header : list string;
  csv_rows : list (list pyval)
}.

Inductive outcome (A : Type) :=
| Returned (a : A)
| Raised (exception : string).
Arguments Returned {A} a.
Arguments Raised {A} exception.

(** [csv.DictWriter.writerows]: a row with a key outside [fieldnames] is a
    [ValueError]; a missing key is written as the empty string. *)
Definition dict_to_list (fieldnames : list string) (rowdict : pydict)
    : outcome (list pyval) :=
  if forallb (fun key => bool_decide (key ∈ fieldnames)) (dict_keys rowdict)
  then Returned (map (fun key => default (VStr "") (dict_get key rowdict)) fieldnames)
  else Raised "ValueError".

Fixpoint writerows (fieldnames : list string) (rows : list pydict)
    : outcome (list (list pyval)) :=
  match rows with
  | [] => Returned []
  | rowdict :: rest =>
      match dict_to_list fieldnames rowdict with
      | Raised e => Raised e
      | Returned line =>
          match writerows fieldnames rest with
          | Raised e => Raised e
          | Returned lines => Returned (line :: lines)
          end
      end
  end.

(** ** Pair expander and dataset assembler *)

Section Assembler.

(** [date.strftime("%Y-%m-%d %H:%M:%S")]; the calendar is not modelled. *)
Variable strftime : datetime -> string.

(** The body of [for pr in pull_request_details]: the rows appended to
    [feature_data] for one pull request. *)
Definition rows_for_pr
    (files_changed_history test_runs_failure_history : gmap string (list datetime))
    (pr_files_changed_data : list file_change_row)
    (pr_test_runs_data : list test_run_row)
    (pr : pr_row) : list pydict :=
  let pr_creation_date := date_of_pr pr in
  let distinct_author_count :=
    match list_of_authors pr with
    | Some (a :: authors) => Py.len (a :: authors)
    | _ => 0
    end in
  let pr_files_changed :=
    map files_paths_changed
        (filter (fun row => fc_pr_link row = pr_link pr) pr_files_changed_data) in
  let num_files_changed := Py.len pr_files_changed in
  let pr_test_runs :=
    map (fun row => {| test_case_file_path := tr_test_case_file_path row;
                       test_case_name := tr_test_case_name row;
                       actual_result := tr_actual_result row |})
        (filter (fun row => tr_pr_link row = pr_link pr) pr_test_runs_data) in
  let processed_test_runs :=
    map (fun test_run =>
           process_test_run test_run pr_creation_date
             (default []
                (test_runs_failure_history
                   !! get_test_run_key (test_case_file_path test_run)
                                       (test_case_name test_run))))
        pr_test_runs in
  let processed_file_changes :=
    map (fun file_change =>
           process_file_change file_change pr_creation_date
             (default [] (files_changed_history !! file_change)))
        pr_files_changed in
  map (fun pair =>
         let test_run := fst pair in
         let file_change := snd pair in
         dict_of_items
           (test_run ++ file_change ++
            [ ("distinct_author", VInt distinct_author_count);
              ("common_tokens",
                VInt (calculate_common_tokens
                        (dict_get_str "test_case_file_path" test_run)
                        (dict_get_str "file_name" file_change)));
              ("minimal_distance",
                VInt (calculate_minimal_distance
                        (match dict_get_str "test_case_file_path" test_run with
                         | Some p => OnePath p
                         | None => NoFiles
                         end)
                        (dict_get_str "file_name" file_change)));
              ("num_files_changed", VInt num_files_changed);
              ("date_of_pr", VStr (strftime pr_creation_date));
              ("pr_link", VStr (pr_link pr)) ])%list)
      (list_prod processed_test_runs processed_file_changes).

(** Everything [process_data_for_repo] accumulates in [feature_data]. *)
Definition feature_rows (pull_request_details : list pr_row)
    (pr_files_changed_data : list file_change_row)
    (pr_test_runs_data : list test_run_row) : list pydict :=
  let files_changed_history :=
    build_files_changed_history pull_request_details pr_files_changed_data in
  let test_runs_failure_history :=
    build_test_runs_failure_history pull_request_details pr_test_runs_data in
  flat_map
    (rows_for_pr files_changed_history test_runs_failure_history
                 pr_files_changed_data pr_test_runs_data)
    pull_request_details.

(** [process_data_for_repo]: [timestamp] is the formatted reading of the
    clock, [fs] the dataset directory before the call. The result is the
    returned path ([None] for Python's [None]) and the directory after.
    Creating the directory and opening the file are taken to succeed: a
    failure of the operating system there is outside the model. *)
Definition process_data_for_repo (db : database) (timestamp : string)
    (repo_name : string) (checkpoint_date : option datetime)
    (fs : gmap string csv_file) : outcome (option string * gmap string csv_file) :=
  let pull_request_details := fetch_pull_requests db repo_name checkpoint_date in
  match pull_request_details with
  | [] => Returned (None, fs)
  | _ :: _ =>
      let pull_request_links := map pr_link pull_request_details in
      let pr_files_changed_data := fetch_files_changed db pull_request_links in
      let pr_test_runs_data := fetch_test_runs db pull_request_links in
      let feature_data :=
        feature_rows pull_request_details pr_files_changed_data pr_test_runs_data in
      let output_file := "csv/" ++ repo_name ++ "_" ++ timestamp ++ ".csv" in
      match feature_data with
      | first_row :: _ =>
          let fieldnames := dict_keys first_row in
          match writerows fieldnames feature_data with
          | Raised e => Raised e
          | Returned lines =>
              Returned (Some output_file,
                        <[output_file := {| csv_header := fieldnames;
                                            csv_rows := lines |}]> fs)
          end
      | [] => Returned (Some output_file, fs)
      end
  end.

(** What one run of the pipeline leaves behind: the dataset directory
    and the [train_model] invocations, in order. The trainer itself is
    an external process: only the fact that it is invoked is recorded, not
    whether it succeeds nor what it writes to storage. *)
Record world := {
  files : gmap string csv_file;
  trainer_calls : list (string * string)
}.

(** The body of [for repo in repositories] in [main]. *)
Definition main_repo (db : database) (timestamp : string) (w : world)
    (repo_name : string) : outcome world :=
  let latest_checkpoint := latest_checkpoint db repo_name in
  match process_data_for_repo db timestamp repo_name latest_checkpoint (files w) with
  | Raised e => Raised e
  | Returned (processed_data_path, fs) =>
      if Py.truthy processed_data_path
      then Returned {| files := fs;
                       trainer_calls :=
                         (trainer_calls w
                            ++ [(repo_name, default "" processed_data_path)])%list |}
      else Returned {| files := fs; trainer_calls := trainer_calls w |}
  end.

(** [main]: [clock i] is the timestamp read while the [i]-th repository
    is processed. *)
Fixpoint main_loop (db : database) (clock : nat -> string) (i : nat)
    (repos : list string) (w : world) : outcome world :=
  match repos with
  | [] => Returned w
  | repo_name :: rest =>
      match main_repo db (clock i) w repo_name with
      | Raised e => Raised e
      | Returned w' => main_loop db clock (S i) rest w'
      end
  end.

Definition main (db : database) (clock : nat -> string) (w : world) : outcome world :=
  main_loop db clock 0 (repositories db) w.

End Assembler.

(** ** The design document's wording of the computed quantities *)

(** Number of matching component pairs at the same index, counted from the
    start, over at most [n] positions, stopping at the first mismatch. *)
Fixpoint matching_prefix (n : nat) (parts_a parts_b : list string) : nat :=
  match n, parts_a, parts_b with
  | S n', x :: parts_a', y :: parts_b' =>
      if String.eqb x y then S (matching_prefix n' parts_a' parts_b') else O
  | _, _, _ => O
  end.

(** Positions the scan may look at: [min(len_a, len_b) - 1]. *)
Definition scan_range (parts_a parts_b : list string) : nat :=
  Z.to_nat (Z.min (Py.len parts_a) (Py.len parts_b) - 1).

(** [len(parts_a) + len(parts_b)] minus 2 for each matching component pair
    in the common prefix. *)
Definition directory_distance_spec (a b : string) : Z :=
  let parts_a := Py.str_split_slash a in
  let parts_b := Py.str_split_slash b in
  Py.len parts_a + Py.len parts_b
  - 2 * Z.of_nat (matching_prefix (scan_range parts_a parts_b) parts_a parts_b).

(** Entries of [dates] strictly after [bound], and on or after [bound]. *)
Definition count_after (bound : datetime) (dates : list datetime) : Z :=
  Py.len (filter (fun d => bound < d) dates).

Definition count_on_or_after (bound : datetime) (dates : list datetime) : Z :=
  Py.len (filter (fun d => bound <= d) dates).

(** The label of a test run: 0 for passed, 1 otherwise. *)
Definition label_of (result : string) : Z :=
  if String.eqb result "passed" then 0 else 1.

(** Columns of the dataset, in order. *)
Definition dataset_columns : list string :=
  [ "test_case_file_path"; "test_case_name"; "actual_result";
    "failures_7_days"; "failures_14_days"; "failures_28_days";
    "file_name"; "file_extension"; "changes_3_days"; "changes_14_days";
    "distinct_author"; "common_tokens"; "minimal_distance";
    "num_files_changed"; "date_of_pr"; "pr_link" ].

(** The dict of [process_test_run] with given counters, and that of
    [process_file_change]. *)
Definition test_features (test_run : test_run) (n7 n14 n28 : Z) : pydict :=
  [ ("test_case_file_path", VStr (test_case_file_path test_run));
    ("test_case_name", VStr (test_case_name test_run));
    ("actual_result", VInt (label_of (actual_result test_run)));
    ("failures_7_days", VInt n7);
    ("failures_14_days", VInt n14);
    ("failures_28_days", VInt n28) ].

Definition extension_without_dot (file_extension : string) : string :=
  match file_extension with
  | String _ tail => tail
  | EmptyString => ""
  end.

Definition file_features (file_change_path : string) (n3 n14 : Z) : pydict :=
  [ ("file_name", VStr (fst (Py.splitext file_change_path)));
    ("file_extension",
      VStr (extension_without_dot (snd (Py.splitext file_change_path))));
    ("changes_3_days", VInt n3);
    ("changes_14_days", VInt n14) ].

(** The rows of the dataset, written out. *)

Section Rows.

Variable strftime : datetime -> string.

(** The row the expander builds for one pull request, one of its test-run
    rows and one of its file-change rows, written out key by key. *)
Definition feature_row
    (files_changed_history test_runs_failure_history : gmap string (list datetime))
    (num_files_changed : Z) (pr : pr_row) (test_row : test_run_row)
    (file_row : file_change_row) : pydict :=
  let failures :=
    default []
      (test_runs_failure_history
         !! get_test_run_key (tr_test_case_file_path test_row)
                             (tr_test_case_name test_row)) in
  let changes := default [] (files_changed_history !! files_paths_changed file_row) in
  let stem := fst (Py.splitext (files_paths_changed file_row)) in
  [ ("test_case_file_path", VStr (tr_test_case_file_path test_row));
    ("test_case_name", VStr (tr_test_case_name test_row));
    ("actual_result", VInt (label_of (tr_actual_result test_row)));
    ("failures_7_days", VInt (count_after (date_of_pr pr - timedelta 7) failures));
    ("failures_14_days", VInt (count_after (date_of_pr pr - timedelta 14) failures));
    ("failures_28_days", VInt (count_after (date_of_pr pr - timedelta 28) failures));
    ("file_name", VStr stem);
    ("file_extension",
      VStr (extension_without_dot (snd (Py.splitext (files_paths_changed file_row)))));
    ("changes_3_days", VInt (count_on_or_after (date_of_pr pr - timedelta 3) changes));
    ("changes_14_days", VInt (count_on_or_after (date_of_pr pr - timedelta 14) changes));
    ("distinct_author", VInt (Py.len (default [] (list_of_authors pr))));
    ("common_tokens",
      VInt (calculate_common_tokens (Some (tr_test_case_file_path test_row)) (Some stem)));
    ("minimal_distance",
      VInt (calculate_minimal_distance (OnePath (tr_test_case_file_path test_row))
                                       (Some stem)));
    ("num_files_changed", VInt num_files_changed);
    ("date_of_pr", VStr (strftime (date_of_pr pr)));
    ("pr_link", VStr (pr_link pr)) ].

(** The test-run rows and the file-change rows of one pull request. *)
Definition test_runs_of (pr : pr_row) (pr_test_runs_data : list test_run_row)
    : list test_run_row :=
  filter (fun row => tr_pr_link row = pr_link pr) pr_test_runs_data.

Definition file_changes_of (pr : pr_row) (pr_files_changed_data : list file_change_row)
    : list file_change_row :=
  filter (fun row => fc_pr_link row = pr_link pr) pr_files_changed_data.

End Rows.

(** A repository with one pull request and neither test runs nor file
    changes recorded for it. *)
Definition lonely_pr_db : database := {|
  repositories := ["r"];
  repo_pr_details :=
    [ {| pr_link := "pr/1"; pr_repo_name := "r"; date_of_pr := timedelta 100;
         list_of_authors := Some ["ann"] |} ];
  pr_to_files_changed_mapping := [];
  pr_to_test_runs_mapping := [];
  checkpoint_details := []
|}.

(** A repository with two checkpoints and pull requests on both sides of
    the lookback bound, and a repository without checkpoint. *)
Definition checkpointed_db : database := {|
  repositories := ["r"; "s"];
  repo_pr_details :=
    [ {| pr_link := "pr/1"; pr_repo_name := "r"; date_of_pr := timedelta 71;
         list_of_authors := None |};
      {| pr_link := "pr/2"; pr_repo_name := "r"; date_of_pr := timedelta 72;
         list_of_authors := None |};
      {| pr_link := "pr/3"; pr_repo_name := "r"; date_of_pr := timedelta 99;
         list_of_authors := None |};
      {| pr_link := "pr/4"; pr_repo_name := "s"; date_of_pr := timedelta 1;
         list_of_authors := None |} ];
  pr_to_files_changed_mapping := [];
  pr_to_test_runs_mapping := [];
  checkpoint_details :=
    [ {| cp_repo_name := "r"; date_of_checkpoint := timedelta 90 |};
      {| cp_repo_name := "r"; date_of_checkpoint := timedelta 100 |} ]
|}.

(** A repository whose single pull request has two test runs, one failed
    and one passed, and three file changes. *)
Definition two_by_three_db : database := {|
  repositories := ["r"];
  repo_pr_details :=
    [ {| pr_link := "pr/7"; pr_repo_name := "r"; date_of_pr := timedelta 100;
         list_of_authors := Some ["ann"; "bob"] |} ];
  pr_to_files_changed_mapping :=
    [ {| fc_pr_link := "pr/7"; files_paths_changed := "a/b/c.py" |};
      {| fc_pr_link := "pr/7"; files_paths_changed := "a/x.txt" |};
      {| fc_pr_link := "pr/7"; files_paths_changed := "README" |} ];
  pr_to_test_runs_mapping :=
    [ {| tr_pr_link := "pr/7"; tr_test_case_file_path := "a/b/test_c.py";
         tr_test_case_name := "t1"; tr_actual_result := "failed" |};
      {| tr_pr_link := "pr/7"; tr_test_case_file_path := "a/b/test_c.py";
         tr_test_case_name := "t2"; tr_actual_result := "passed" |} ];
  checkpoint_details := []
|}.

(** A path of [n] slashes: [n + 1] empty components. *)
Fixpoint slashes (n : nat) : string :=
  match n with
  | O => EmptyString
  | S n' => String "/"%char (slashes n')
  end.

(** ** Further vocabulary for the properties below *)

(** Whether the character [c] occurs in [s]. *)
Fixpoint contains (c : ascii) (s : string) : bool :=
  match s with
  | EmptyString => false
  | String x rest => Ascii.eqb x c || contains c rest
  end.

(** The trainer's [INSERT INTO checkpoint_details] at the end of a
    successful run ([cron/train_model.py]): one more row for the
    repository. *)
Definition insert_checkpoint (db : database) (repo_name : string)
    (checkpoint_date : datetime) : database := {|
  repositories := repositories db;
  repo_pr_details := repo_pr_details db;
  pr_to_files_changed_mapping := pr_to_files_changed_mapping db;
  pr_to_test_runs_mapping := pr_to_test_runs_mapping db;
  checkpoint_details :=
    (checkpoint_details db
     ++ [ {| cp_repo_name := repo_name; date_of_checkpoint := checkpoint_date |} ])%list
|}.

(** The columns [build_pipeline] of [cron/train_model.py] selects as
    features, and every column the trainer reads from the dataset: the
    features, the target, and the columns it sorts, splits and reports
    by. *)
Definition numerical_features : list string :=
  [ "num_files_changed"; "failures_7_days"; "failures_14_days"; "failures_28_days";
    "changes_3_days"; "changes_14_days"; "minimal_distance"; "common_tokens" ].

Definition categorical_features : list string :=
  [ "file_name"; "file_extension"; "test_case_file_path"; "test_case_name" ].

Definition feature_cols : list string :=
  (numerical_features ++ categorical_features)%list.

Definition trainer_columns : list string :=
  (feature_cols
   ++ [ "actual_result"; "date_of_pr"; "pr_link";
        "test_case_file_path"; "test_case_name" ])%list.

(** ** The primitives on a few inputs *)

Example str_split_examples :
  Py.str_split_slash "" = [""]
  /\ Py.str_split_slash "a/b/c.py" = ["a"; "b"; "c.py"]
  /\ Py.str_split_slash "a/" = ["a"; ""]
  /\ Py.str_split_slash "/a//b" = [""; "a"; ""; "b"]
  /\ Py.re_split_slash_dot "a/b/c.py" = ["a"; "b"; "c"; "py"]
  /\ Py.re_split_slash_dot "/a..b" = [""; "a"; ""; "b"].
Proof. repeat split; reflexivity. Qed.

Example splitext_examples :
  Py.splitext "a/b/c.py" = ("a/b/c", ".py")
  /\ Py.splitext "x.tar.gz" = ("x.tar", ".gz")
  /\ Py.splitext ".bashrc" = (".bashrc", "")
  /\ Py.splitext "a.b/c" = ("a.b/c", "")
  /\ Py.splitext "a/..b.c" = ("a/..b", ".c")
  /\ Py.splitext "a." = ("a", ".")
  /\ Py.splitext "README" = ("README", "").
Proof. repeat split; reflexivity. Qed.

Example dict_display_examples :
  dict_of_items [("a", VInt 1); ("b", VInt 2); ("a", VInt 3)]
    = [("a", VInt 3); ("b", VInt 2)]
  /\ dict_incr "b" [("a", VInt 1); ("b", VInt 2)] = [("a", VInt 1); ("b", VInt 3)].
Proof. split; reflexivity. Qed.

(** ** Path similarity scorer: properties *)

Section PathSimilarity.

Lemma split_on_nonempty is_sep s : Py.split_on is_sep s <> [].
Proof.
  destruct s as [|c rest]; simpl; [discriminate|].
  destruct (is_sep c); [discriminate|].
  destruct (Py.split_on is_sep rest); discriminate.
Qed.

Lemma len_split_pos s : 1 <= Py.len (Py.str_split_slash s).
Proof.
  unfold Py.len, Py.str_split_slash.
  pose proof (split_on_nonempty Py.is_slash s) as Hne.
  destruct (Py.split_on Py.is_slash s); [congruence|simpl; lia].
Qed.

Lemma matching_prefix_le n parts_a parts_b :
  (matching_prefix n parts_a parts_b <= n)%nat.
Proof.
  revert parts_a parts_b.
  induction n as [|n IH]; intros [|x parts_a] [|y parts_b]; simpl; try lia.
  destruct (String.eqb x y); [|lia].
  specialize (IH parts_a parts_b). lia.
Qed.

Lemma matching_prefix_sym n parts_a parts_b :
  matching_prefix n parts_a parts_b = matching_prefix n parts_b parts_a.
Proof.
  revert parts_a parts_b.
  induction n as [|n IH]; intros [|x parts_a] [|y parts_b]; simpl; try reflexivity.
  rewrite (String.eqb_sym y x).
  destruct (String.eqb x y); [f_equal; apply IH|reflexivity].
Qed.

(** The index loop over [range(n)] subtracts 2 per matching pair. *)
Lemma prefix_loop_seq n :
  forall k test_splits changed_splits distance,
    (k + n <= List.length test_splits)%nat ->
    (k + n <= List.length changed_splits)%nat ->
    prefix_loop (seq k n) test_splits changed_splits distance
    = distance
      - 2 * Z.of_nat (matching_prefix n (drop k test_splits) (drop k changed_splits)).
Proof.
  induction n as [|n IH]; intros k ts cs d Ht Hc.
  - simpl. lia.
  - cbn [seq prefix_loop].
    destruct (lookup_lt_is_Some_2 ts k ltac:(lia)) as [t Hlt].
    destruct (lookup_lt_is_Some_2 cs k ltac:(lia)) as [c Hlc].
    rewrite Hlt, Hlc.
    rewrite (drop_S ts t k Hlt), (drop_S cs c k Hlc).
    cbn [matching_prefix].
    destruct (String.eqb t c); [|lia].
    rewrite IH by lia. lia.
Qed.

Lemma entry_distance_spec a b :
  entry_distance (Py.str_split_slash b) {| filename := a |}
  = directory_distance_spec a b.
Proof.
  unfold entry_distance, directory_distance_spec, scan_range; cbn [filename].
  pose proof (len_split_pos a) as Ha. pose proof (len_split_pos b) as Hb.
  set (pa := Py.str_split_slash a) in *. set (pb := Py.str_split_slash b) in *.
  unfold Py.len in *.
  rewrite prefix_loop_seq by lia.
  rewrite !drop_0.
  replace (Z.min (Z.of_nat (List.length pa) - 1) (Z.of_nat (List.length pb) - 1))
    with (Z.min (Z.of_nat (List.length pa)) (Z.of_nat (List.length pb)) - 1) by lia.
  rewrite (matching_prefix_sym _ pb pa). reflexivity.
Qed.

Lemma directory_distance_spec_sym a b :
  directory_distance_spec a b = directory_distance_spec b a.
Proof.
  unfold directory_distance_spec, scan_range.
  rewrite (matching_prefix_sym _ (Py.str_split_slash a) (Py.str_split_slash b)).
  rewrite (Z.min_comm (Py.len (Py.str_split_slash a))). lia.
Qed.

Lemma foldr_min_init x m l :
  foldr Z.min (Z.min m x) l = Z.min x (foldr Z.min m l).
Proof. induction l as [|y l IH]; simpl; [lia|]. rewrite IH. lia. Qed.

Lemma fold_left_min {A} (f : A -> Z) l :
  forall m, fold_left (fun acc e => Z.min acc (f e)) l m = foldr Z.min m (map f l).
Proof.
  induction l as [|e l IH]; intros m; simpl; [reflexivity|].
  rewrite IH, foldr_min_init. reflexivity.
Qed.

Lemma minimal_distance_one_path a b :
  a <> "" -> b <> "" ->
  calculate_minimal_distance (OnePath a) (Some b)
  = Z.min 1000 (directory_distance_spec a b).
Proof.
  intros Ha Hb. unfold calculate_minimal_distance.
  destruct a as [|ca a]; [congruence|]. destruct b as [|cb b]; [congruence|].
  cbn [changed_truthy Py.truthy negb orb default fold_left].
  rewrite entry_distance_spec. reflexivity.
Qed.

Lemma minimal_distance_entries e l b :
  b <> "" ->
  calculate_minimal_distance (Entries (e :: l)) (Some b)
  = foldr Z.min 1000
      (map (fun entry => directory_distance_spec (filename entry) b) (e :: l)).
Proof.
  intros Hb. unfold calculate_minimal_distance.
  destruct b as [|cb b]; [congruence|].
  cbn [changed_truthy Py.truthy negb orb default].
  rewrite fold_left_min. f_equal.
  apply map_ext. intros [f]. apply entry_distance_spec.
Qed.

Lemma minimal_distance_falsy_changed c t :
  changed_truthy c = false -> calculate_minimal_distance c t = 1000.
Proof. intros H. unfold calculate_minimal_distance. rewrite H. reflexivity. Qed.

Lemma minimal_distance_falsy_test c t :
  Py.truthy t = false -> calculate_minimal_distance c t = 1000.
Proof.
  intros H. unfold calculate_minimal_distance. rewrite H.
  rewrite orb_true_r. reflexivity.
Qed.

End PathSimilarity.

(** What the code computes. For two non-empty paths the result is the
    component formula capped at 1000: [len(parts_a) + len(parts_b)] minus 2
    per matching pair of the common prefix, looked for among the first
    [min(len_a, len_b) - 1] positions only, so that neither final
    component earns credit; the formula itself is returned whenever it
    does not exceed 1000. An empty or absent input gives 1000. The two
    worked examples give 2. *)
Lemma calculate_minimal_distance_capped (a b : string) :
  a <> "" -> b <> "" ->
  calculate_minimal_distance (OnePath a) (Some b)
    = Z.min 1000 (directory_distance_spec a b)
  /\ (matching_prefix (scan_range (Py.str_split_slash a) (Py.str_split_slash b))
        (Py.str_split_slash a) (Py.str_split_slash b)
      <= scan_range (Py.str_split_slash a) (Py.str_split_slash b))%nat
  /\ Z.of_nat (scan_range (Py.str_split_slash a) (Py.str_split_slash b))
     = Z.min (Py.len (Py.str_split_slash a)) (Py.len (Py.str_split_slash b)) - 1
  /\ (forall t, calculate_minimal_distance NoFiles t = 1000
                /\ calculate_minimal_distance (OnePath "") t = 1000
                /\ calculate_minimal_distance (Entries []) t = 1000)
  /\ (forall c, calculate_minimal_distance c None = 1000
                /\ calculate_minimal_distance c (Some "") = 1000)
  /\ calculate_minimal_distance (OnePath "a/b/c.py") (Some "a/b/test_c.py") = 2
  /\ calculate_minimal_distance (OnePath "a") (Some "a") = 2
  /\ (forall e l,
        calculate_minimal_distance (Entries (e :: l)) (Some b)
        = foldr Z.min 1000
            (map (fun entry => directory_distance_spec (filename entry) b) (e :: l))).
Proof.
  intros Ha Hb.
  split; [apply minimal_distance_one_path; assumption|].
  split; [apply matching_prefix_le|].
  split.
  { unfold scan_range.
    pose proof (len_split_pos a). pose proof (len_split_pos b). lia. }
  split.
  { intros t. repeat split; apply minimal_distance_falsy_changed; reflexivity. }
  split.
  { intros c. split; apply minimal_distance_falsy_test; reflexivity. }
  split; [vm_compute; reflexivity|].
  split; [vm_compute; reflexivity|].
  intros e l. apply minimal_distance_entries; assumption.
Qed.

Lemma calculate_minimal_distance_capped_witness :
  calculate_minimal_distance (OnePath "src/app/db.py") (Some "src/app/tests/test_db.py")
  = Z.min 1000 (directory_distance_spec "src/app/db.py" "src/app/tests/test_db.py").
Proof.
  apply (calculate_minimal_distance_capped "src/app/db.py" "src/app/tests/test_db.py");
    discriminate.
Defined.

(** C6, at a deep path. The docstring defines the distance as the sum of
    the path components minus twice the common prefix length. For the
    non-empty path of 999 slashes (1000 empty components) against ["x"]
    that is 1000 + 1 - 0 = 1001; the code returns 1000, because the
    distance of the single path is folded into a minimum started at the
    sentinel 1000. *)
Lemma calculate_minimal_distance_deep_path :
  slashes 999 <> ""
  /\ "x" <> ""
  /\ directory_distance_spec (slashes 999) "x" = 1001
  /\ calculate_minimal_distance (OnePath (slashes 999)) (Some "x") = 1000
  /\ calculate_minimal_distance (OnePath (slashes 999)) (Some "x")
     <> directory_distance_spec (slashes 999) "x".
Proof.
  assert (Hspec : directory_distance_spec (slashes 999) "x" = 1001)
    by (vm_compute; reflexivity).
  assert (Hcode : calculate_minimal_distance (OnePath (slashes 999)) (Some "x") = 1000)
    by (vm_compute; reflexivity).
  split; [discriminate|].
  split; [discriminate|].
  split; [exact Hspec|].
  split; [exact Hcode|].
  rewrite Hspec, Hcode. discriminate.
Qed.

(** C7. Swapping the two paths changes neither the result nor the
    component sum nor the number of matching prefix pairs. *)
Theorem calculate_minimal_distance_symmetric (a b : string) :
  calculate_minimal_distance (OnePath a) (Some b)
    = calculate_minimal_distance (OnePath b) (Some a)
  /\ Py.len (Py.str_split_slash a) + Py.len (Py.str_split_slash b)
     = Py.len (Py.str_split_slash b) + Py.len (Py.str_split_slash a)
  /\ matching_prefix (scan_range (Py.str_split_slash a) (Py.str_split_slash b))
       (Py.str_split_slash a) (Py.str_split_slash b)
     = matching_prefix (scan_range (Py.str_split_slash b) (Py.str_split_slash a))
         (Py.str_split_slash b) (Py.str_split_slash a)
  /\ entry_distance (Py.str_split_slash b) {| filename := a |}
     = entry_distance (Py.str_split_slash a) {| filename := b |}.
Proof.
  split.
  { destruct a as [|ca a], b as [|cb b]; try reflexivity.
    rewrite !minimal_distance_one_path by discriminate.
    rewrite directory_distance_spec_sym. reflexivity. }
  split; [lia|].
  split.
  { unfold scan_range. rewrite (Z.min_comm (Py.len (Py.str_split_slash a))).
    apply matching_prefix_sym. }
  rewrite !entry_distance_spec. apply directory_distance_spec_sym.
Qed.

(** ** Token overlap *)

Lemma elem_of_tokens t p :
  t ∈ tokens p <-> t <> "" /\ t ∈ Py.re_split_slash_dot p.
Proof. unfold tokens. rewrite elem_of_list_to_set, list_elem_of_filter. reflexivity. Qed.

(** C8. The count is 0 when an input is absent or empty; for two paths it is
    the size of the intersection of their token sets, a token being a
    non-empty piece of the path cut at every ["/"] and ["."]; the count
    does not depend on the order of the arguments; the worked example
    gives 2. *)
Theorem calculate_common_tokens_spec (a b : string) (x y : option string) :
  calculate_common_tokens None y = 0
  /\ calculate_common_tokens x None = 0
  /\ calculate_common_tokens (Some "") y = 0
  /\ calculate_common_tokens x (Some "") = 0
  /\ calculate_common_tokens (Some a) (Some b) = Z.of_nat (size (tokens a ∩ tokens b))
  /\ (forall t, t ∈ tokens a ∩ tokens b
                <-> t <> "" /\ t ∈ Py.re_split_slash_dot a /\ t ∈ Py.re_split_slash_dot b)
  /\ calculate_common_tokens x y = calculate_common_tokens y x
  /\ calculate_common_tokens (Some "a/b/c.py") (Some "a/b_c.py") = 2.
Proof.
  assert (Hempty : tokens "" = ∅) by reflexivity.
  split; [reflexivity|].
  split; [unfold calculate_common_tokens; rewrite orb_true_r; reflexivity|].
  split; [reflexivity|].
  split; [unfold calculate_common_tokens; cbn; rewrite orb_true_r; reflexivity|].
  split.
  { unfold calculate_common_tokens.
    destruct a as [|ca a]; destruct b as [|cb b]; cbn [Py.truthy negb orb default];
      rewrite ?Hempty, ?intersection_empty_l_L, ?intersection_empty_r_L, ?size_empty;
      reflexivity. }
  split.
  { intros t. rewrite elem_of_intersection, !elem_of_tokens. tauto. }
  split; [|vm_compute; reflexivity].
  unfold calculate_common_tokens.
  rewrite (orb_comm (negb (Py.truthy x))).
  destruct (negb (Py.truthy y) || negb (Py.truthy x)); [reflexivity|].
  cbn zeta. rewrite (comm_L (∩)). reflexivity.
Qed.

(** ** Feature synthesizer: properties *)

Section WindowedCounts.

Lemma count_after_cons bound d dates :
  count_after bound (d :: dates)
  = (if d >? bound then 1 else 0) + count_after bound dates.
Proof.
  unfold count_after, Py.len. rewrite filter_cons.
  destruct (decide (bound < d)); destruct (Z.gtb_spec d bound);
    cbn [List.length]; lia.
Qed.

Lemma count_on_or_after_cons bound d dates :
  count_on_or_after bound (d :: dates)
  = (if d >=? bound then 1 else 0) + count_on_or_after bound dates.
Proof.
  unfold count_on_or_after, Py.len. rewrite filter_cons.
  destruct (decide (bound <= d)); destruct (Z.geb_spec d bound);
    cbn [List.length]; lia.
Qed.

Lemma count_after_app bound l1 l2 :
  count_after bound (l1 ++ l2)%list = count_after bound l1 + count_after bound l2.
Proof.
  induction l1 as [|d l1 IH]; [reflexivity|].
  cbn [app]. rewrite !count_after_cons, IH. lia.
Qed.

Lemma count_on_or_after_app bound l1 l2 :
  count_on_or_after bound (l1 ++ l2)%list
  = count_on_or_after bound l1 + count_on_or_after bound l2.
Proof.
  induction l1 as [|d l1 IH]; [reflexivity|].
  cbn [app]. rewrite !count_on_or_after_cons, IH. lia.
Qed.

(** A wider window counts at least as much. *)
Lemma count_after_mono bound bound' dates :
  bound' <= bound -> count_after bound dates <= count_after bound' dates.
Proof.
  intros Hle. induction dates as [|d dates IH]; [reflexivity|].
  rewrite !count_after_cons.
  destruct (Z.gtb_spec d bound); destruct (Z.gtb_spec d bound'); lia.
Qed.

Lemma count_on_or_after_mono bound bound' dates :
  bound' <= bound -> count_on_or_after bound dates <= count_on_or_after bound' dates.
Proof.
  intros Hle. induction dates as [|d dates IH]; [reflexivity|].
  rewrite !count_on_or_after_cons.
  destruct (Z.geb_spec d bound); destruct (Z.geb_spec d bound'); lia.
Qed.

Lemma timedelta_mono m n : m <= n -> timedelta m <= timedelta n.
Proof. unfold timedelta, microseconds_per_day. lia. Qed.

Lemma test_features_ext test_run a b c a' b' c' :
  a = a' -> b = b' -> c = c' ->
  test_features test_run a b c = test_features test_run a' b' c'.
Proof. congruence. Qed.

Lemma file_features_ext path a b a' b' :
  a = a' -> b = b' -> file_features path a b = file_features path a' b'.
Proof. congruence. Qed.

(** The failure loop, started from any counters. *)
Lemma process_test_run_loop test_run pr_creation_date failed_run_dates :
  forall n7 n14 n28,
    fold_left
      (fun data failed_date =>
         let data :=
           if failed_date >? pr_creation_date - timedelta 7
           then dict_incr "failures_7_days" data else data in
         let data :=
           if failed_date >? pr_creation_date - timedelta 14
           then dict_incr "failures_14_days" data else data in
         if failed_date >? pr_creation_date - timedelta 28
         then dict_incr "failures_28_days" data else data)
      failed_run_dates (test_features test_run n7 n14 n28)
    = test_features test_run
        (n7 + count_after (pr_creation_date - timedelta 7) failed_run_dates)
        (n14 + count_after (pr_creation_date - timedelta 14) failed_run_dates)
        (n28 + count_after (pr_creation_date - timedelta 28) failed_run_dates).
Proof.
  induction failed_run_dates as [|d dates IH]; intros n7 n14 n28.
  - cbn [fold_left]. unfold count_after, Py.len. cbn.
    rewrite !Z.add_0_r. reflexivity.
  - cbn [fold_left]. rewrite !count_after_cons. cbn beta zeta.
    destruct (d >? pr_creation_date - timedelta 7);
      destruct (d >? pr_creation_date - timedelta 14);
      destruct (d >? pr_creation_date - timedelta 28);
      match goal with
      | |- fold_left _ _ ?data = _ =>
          let data' := eval cbv [dict_incr dict_get dict_set test_features
                                 String.eqb Ascii.eqb Bool.eqb] in data in
          change data with data'
      end;
      match goal with
      | |- fold_left _ _ ?data = _ =>
          match data with
          | context [("failures_7_days", VInt ?a)] =>
              match data with
              | context [("failures_14_days", VInt ?b)] =>
                  match data with
                  | context [("failures_28_days", VInt ?c)] =>
                      change data with (test_features test_run a b c)
                  end
              end
          end
      end;
      rewrite IH; apply test_features_ext; lia.
Qed.

Lemma process_test_run_closed test_run pr_creation_date failed_run_dates :
  process_test_run test_run pr_creation_date failed_run_dates
  = test_features test_run
      (count_after (pr_creation_date - timedelta 7) failed_run_dates)
      (count_after (pr_creation_date - timedelta 14) failed_run_dates)
      (count_after (pr_creation_date - timedelta 28) failed_run_dates).
Proof.
  unfold process_test_run.
  change (dict_of_items _) with (test_features test_run 0 0 0).
  rewrite process_test_run_loop. reflexivity.
Qed.

(** The change loop, started from any counters. *)
Lemma process_file_change_loop path pr_creation_date file_change_dates :
  forall n3 n14,
    fold_left
      (fun data change_date =>
         let data :=
           if change_date >=? pr_creation_date - timedelta 3
           then dict_incr "changes_3_days" data else data in
         if change_date >=? pr_creation_date - timedelta 14
         then dict_incr "changes_14_days" data else data)
      file_change_dates (file_features path n3 n14)
    = file_features path
        (n3 + count_on_or_after (pr_creation_date - timedelta 3) file_change_dates)
        (n14 + count_on_or_after (pr_creation_date - timedelta 14) file_change_dates).
Proof.
  induction file_change_dates as [|d dates IH]; intros n3 n14.
  - cbn [fold_left]. unfold count_on_or_after, Py.len. cbn.
    rewrite !Z.add_0_r. reflexivity.
  - cbn [fold_left]. rewrite !count_on_or_after_cons. cbn beta zeta.
    destruct (d >=? pr_creation_date - timedelta 3);
      destruct (d >=? pr_creation_date - timedelta 14);
      match goal with
      | |- fold_left _ _ ?data = _ =>
          let data' := eval cbv [dict_incr dict_get dict_set file_features
                                 String.eqb Ascii.eqb Bool.eqb] in data in
          change data with data'
      end;
      match goal with
      | |- fold_left _ _ ?data = _ =>
          match data with
          | context [("changes_3_days", VInt ?a)] =>
              match data with
              | context [("changes_14_days", VInt ?b)] =>
                  change data with (file_features path a b)
              end
          end
      end;
      rewrite IH; apply file_features_ext; lia.
Qed.

Lemma process_file_change_closed path pr_creation_date file_change_dates :
  process_file_change path pr_creation_date file_change_dates
  = file_features path
      (count_on_or_after (pr_creation_date - timedelta 3) file_change_dates)
      (count_on_or_after (pr_creation_date - timedelta 14) file_change_dates).
Proof.
  unfold process_file_change.
  destruct (Py.splitext path) as [file_name file_extension] eqn:Hsplit.
  change (dict_of_items _)
    with [ ("file_name", VStr file_name);
           ("file_extension", VStr (extension_without_dot file_extension));
           ("changes_3_days", VInt 0); ("changes_14_days", VInt 0) ].
  replace file_name with (fst (Py.splitext path)) by (rewrite Hsplit; reflexivity).
  replace file_extension with (snd (Py.splitext path)) by (rewrite Hsplit; reflexivity).
  change [ ("file_name", VStr (fst (Py.splitext path)));
           ("file_extension", VStr (extension_without_dot (snd (Py.splitext path))));
           ("changes_3_days", VInt 0); ("changes_14_days", VInt 0) ]
    with (file_features path 0 0).
  rewrite process_file_change_loop. reflexivity.
Qed.

Lemma count_after_boundary bound : count_after bound [bound] = 0.
Proof.
  rewrite count_after_cons.
  destruct (Z.gtb_spec bound bound); [lia|reflexivity].
Qed.

Lemma count_on_or_after_boundary bound : count_on_or_after bound [bound] = 1.
Proof.
  rewrite count_on_or_after_cons.
  destruct (Z.geb_spec bound bound); [reflexivity|lia].
Qed.

End WindowedCounts.

(** C1. The three failure counters are the numbers of failure dates
    strictly after the PR date minus 7, 14 and 28 days; a failure dated
    exactly on a window's boundary does not change that window's counter;
    for failures 1, 10, 20 and 30 days before the PR the counters are 1, 2
    and 3. *)
Theorem process_test_run_failure_counts (test_run : test_run) (pr_date : datetime)
    (failure_dates before after : list datetime) :
  dict_get "failures_7_days" (process_test_run test_run pr_date failure_dates)
    = Some (VInt (count_after (pr_date - timedelta 7) failure_dates))
  /\ dict_get "failures_14_days" (process_test_run test_run pr_date failure_dates)
     = Some (VInt (count_after (pr_date - timedelta 14) failure_dates))
  /\ dict_get "failures_28_days" (process_test_run test_run pr_date failure_dates)
     = Some (VInt (count_after (pr_date - timedelta 28) failure_dates))
  /\ dict_get "failures_7_days"
       (process_test_run test_run pr_date (before ++ pr_date - timedelta 7 :: after)%list)
     = dict_get "failures_7_days"
         (process_test_run test_run pr_date (before ++ after)%list)
  /\ dict_get "failures_14_days"
       (process_test_run test_run pr_date (before ++ pr_date - timedelta 14 :: after)%list)
     = dict_get "failures_14_days"
         (process_test_run test_run pr_date (before ++ after)%list)
  /\ dict_get "failures_28_days"
       (process_test_run test_run pr_date (before ++ pr_date - timedelta 28 :: after)%list)
     = dict_get "failures_28_days"
         (process_test_run test_run pr_date (before ++ after)%list)
  /\ process_test_run test_run pr_date
       [ pr_date - timedelta 1; pr_date - timedelta 10;
         pr_date - timedelta 20; pr_date - timedelta 30 ]
     = test_features test_run 1 2 3.
Proof.
  rewrite !process_test_run_closed.
  assert (Hskip : forall bound,
             count_after bound (before ++ bound :: after)%list
             = count_after bound (before ++ after)%list).
  { intros bound.
    change (bound :: after) with ([bound] ++ after)%list.
    rewrite !count_after_app, count_after_boundary. lia. }
  rewrite !Hskip.
  repeat (split; [reflexivity|]).
  apply test_features_ext; rewrite !count_after_cons;
    change (count_after _ []) with 0;
    unfold timedelta, microseconds_per_day;
    repeat match goal with
           | |- context [?x >? ?y] => destruct (Z.gtb_spec x y)
           end; lia.
Qed.

(** C2. The two change counters are the numbers of change dates on or
    after the PR date minus 3 and 14 days; a change dated exactly on a
    window's boundary adds one to that window's counter. *)
Theorem process_file_change_change_counts (file_path : string) (pr_date : datetime)
    (change_dates before after : list datetime) :
  dict_get "changes_3_days" (process_file_change file_path pr_date change_dates)
    = Some (VInt (count_on_or_after (pr_date - timedelta 3) change_dates))
  /\ dict_get "changes_14_days" (process_file_change file_path pr_date change_dates)
     = Some (VInt (count_on_or_after (pr_date - timedelta 14) change_dates))
  /\ dict_get "changes_3_days"
       (process_file_change file_path pr_date (before ++ pr_date - timedelta 3 :: after)%list)
     = Some (VInt (1 + count_on_or_after (pr_date - timedelta 3) (before ++ after)%list))
  /\ dict_get "changes_14_days"
       (process_file_change file_path pr_date (before ++ pr_date - timedelta 14 :: after)%list)
     = Some (VInt (1 + count_on_or_after (pr_date - timedelta 14) (before ++ after)%list)).
Proof.
  rewrite !process_file_change_closed.
  assert (Hkeep : forall bound,
             count_on_or_after bound (before ++ bound :: after)%list
             = 1 + count_on_or_after bound (before ++ after)%list).
  { intros bound.
    change (bound :: after) with ([bound] ++ after)%list.
    rewrite !count_on_or_after_app, count_on_or_after_boundary. lia. }
  rewrite !Hkeep.
  repeat split; reflexivity.
Qed.

(** C10. The counters grow with the window: 7 days at most 14 days at most
    28 days for failures, 3 days at most 14 days for changes. *)
Theorem windowed_counts_monotone (test_run : test_run) (file_path : string)
    (pr_date : datetime) (dates : list datetime) :
  (exists n7 n14 n28,
      dict_get "failures_7_days" (process_test_run test_run pr_date dates)
        = Some (VInt n7)
      /\ dict_get "failures_14_days" (process_test_run test_run pr_date dates)
         = Some (VInt n14)
      /\ dict_get "failures_28_days" (process_test_run test_run pr_date dates)
         = Some (VInt n28)
      /\ 0 <= n7 <= n14 /\ n14 <= n28)
  /\ (exists n3 n14,
         dict_get "changes_3_days" (process_file_change file_path pr_date dates)
           = Some (VInt n3)
         /\ dict_get "changes_14_days" (process_file_change file_path pr_date dates)
            = Some (VInt n14)
         /\ 0 <= n3 <= n14).
Proof.
  rewrite process_test_run_closed, process_file_change_closed.
  split.
  - eexists _, _, _. repeat (split; [reflexivity|]).
    pose proof (count_after_mono (pr_date - timedelta 7) (pr_date - timedelta 14) dates).
    pose proof (count_after_mono (pr_date - timedelta 14) (pr_date - timedelta 28) dates).
    pose proof (timedelta_mono 7 14). pose proof (timedelta_mono 14 28).
    unfold count_after, Py.len in *. lia.
  - eexists _, _. repeat (split; [reflexivity|]).
    pose proof (count_on_or_after_mono (pr_date - timedelta 3) (pr_date - timedelta 14) dates).
    pose proof (timedelta_mono 3 14).
    unfold count_on_or_after, Py.len in *. lia.
Qed.

(** ** Checkpoint resolver: properties *)

Section Checkpoint.

Lemma fold_left_max_ge dates :
  forall d, d <= fold_left Z.max dates d
            /\ Forall (fun x => x <= fold_left Z.max dates d) dates.
Proof.
  induction dates as [|x dates IH]; intros d; cbn [fold_left].
  - split; [lia|constructor].
  - destruct (IH (Z.max d x)) as [Hd Hall]. split; [lia|].
    constructor; [lia|exact Hall].
Qed.

Lemma fold_left_max_in dates :
  forall d, fold_left Z.max dates d = d \/ fold_left Z.max dates d ∈ dates.
Proof.
  induction dates as [|x dates IH]; intros d; cbn [fold_left]; [left; reflexivity|].
  destruct (IH (Z.max d x)) as [Heq|Hin].
  - rewrite Heq. destruct (Z.max_spec d x) as [[_ ->]|[_ ->]];
      [right; left|left; reflexivity].
  - right. right. exact Hin.
Qed.

Lemma sql_max_spec column m :
  sql_max column = Some m -> m ∈ column /\ Forall (fun x => x <= m) column.
Proof.
  destruct column as [|d rest]; cbn [sql_max]; [discriminate|].
  intros [= <-].
  destruct (fold_left_max_ge rest d) as [Hd Hall].
  split.
  - destruct (fold_left_max_in rest d) as [->|Hin]; [left|right; exact Hin].
  - constructor; assumption.
Qed.

Lemma sql_max_some column :
  column <> [] -> exists m, sql_max column = Some m.
Proof. destruct column; [congruence|]. intros _. eexists. reflexivity. Qed.

End Checkpoint.

Lemma filter_nil_forall {A} (P : A -> Prop) `{forall x, Decision (P x)} (l : list A) :
  (forall x, x ∈ l -> ~ P x) -> filter P l = [].
Proof.
  intros Hnone. destruct (filter P l) as [|x rest] eqn:E; [reflexivity|].
  exfalso.
  assert (Hx : x ∈ filter P l) by (rewrite E; left).
  apply list_elem_of_filter in Hx as [HP Hx]. exact (Hnone x Hx HP).
Qed.

(** C4. When the repository has a checkpoint row, [main] resolves the
    greatest checkpoint date of the repository, the lookback bound is that
    date minus 28 days exactly, and the pull requests fetched are those of
    the repository dated on or after the bound: none dated strictly before
    it is fetched. When the repository has no checkpoint row, in
    particular on an empty checkpoint table, nothing is resolved and every
    pull request of the repository is fetched, whatever its date. *)
Theorem checkpoint_lookback (db : database) (repo_name : string) :
  (forall row,
     row ∈ checkpoint_details db ->
     cp_repo_name row = repo_name ->
     exists checkpoint_date,
       latest_checkpoint db repo_name = Some checkpoint_date
       /\ (exists row', row' ∈ checkpoint_details db /\ cp_repo_name row' = repo_name
                        /\ date_of_checkpoint row' = checkpoint_date)
       /\ (forall row', row' ∈ checkpoint_details db -> cp_repo_name row' = repo_name ->
                        date_of_checkpoint row' <= checkpoint_date)
       /\ start_date checkpoint_date = checkpoint_date - 28 * 86400000000
       /\ (forall pr,
             pr ∈ fetch_pull_requests db repo_name (latest_checkpoint db repo_name)
             <-> pr ∈ repo_pr_details db /\ pr_repo_name pr = repo_name
                 /\ start_date checkpoint_date <= date_of_pr pr)
       /\ (forall pr,
             date_of_pr pr < start_date checkpoint_date ->
             pr ∉ fetch_pull_requests db repo_name (latest_checkpoint db repo_name)))
  /\ ((forall row, row ∈ checkpoint_details db -> cp_repo_name row <> repo_name) ->
      latest_checkpoint db repo_name = None
      /\ fetch_pull_requests db repo_name (latest_checkpoint db repo_name)
         = filter (fun pr => pr_repo_name pr = repo_name) (repo_pr_details db)
      /\ (forall pr,
            pr ∈ fetch_pull_requests db repo_name (latest_checkpoint db repo_name)
            <-> pr ∈ repo_pr_details db /\ pr_repo_name pr = repo_name)).
Proof.
  split.
  - intros row Hrow Hrepo.
    assert (Hne : map date_of_checkpoint
                    (filter (fun r => cp_repo_name r = repo_name) (checkpoint_details db))
                  <> []).
    { intros Hnil. apply map_eq_nil in Hnil.
      assert (Hin : row ∈ filter (fun r => cp_repo_name r = repo_name)
                                 (checkpoint_details db))
        by (apply list_elem_of_filter; split; assumption).
      rewrite Hnil in Hin. inversion Hin. }
    destruct (sql_max_some _ Hne) as [m Hm].
    destruct (sql_max_spec _ _ Hm) as [Hin Hall].
    exists m. unfold latest_checkpoint at 1. split; [exact Hm|].
    split.
    { apply list_elem_of_fmap in Hin as (row' & -> & Hin').
      apply list_elem_of_filter in Hin' as [Hr Hin'].
      exists row'. repeat split; assumption. }
    split.
    { intros row' Hin' Hr.
      rewrite Forall_forall in Hall. apply Hall.
      apply list_elem_of_fmap. exists row'. split; [reflexivity|].
      apply list_elem_of_filter. split; assumption. }
    split; [reflexivity|].
    assert (Hfetch : forall pr,
               pr ∈ fetch_pull_requests db repo_name (latest_checkpoint db repo_name)
               <-> pr ∈ repo_pr_details db /\ pr_repo_name pr = repo_name
                   /\ start_date m <= date_of_pr pr).
    { intros pr. unfold latest_checkpoint. rewrite Hm. cbn [fetch_pull_requests].
      rewrite list_elem_of_filter. tauto. }
    split; [exact Hfetch|].
    intros pr Hlt Hin'. apply Hfetch in Hin' as (_ & _ & Hge). lia.
  - intros Hnone.
    assert (Hlatest : latest_checkpoint db repo_name = None).
    { unfold latest_checkpoint.
      rewrite (filter_nil_forall (fun r => cp_repo_name r = repo_name)
                 (checkpoint_details db) Hnone).
      reflexivity. }
    rewrite Hlatest. cbn [fetch_pull_requests].
    split; [reflexivity|]. split; [reflexivity|].
    intros pr. rewrite list_elem_of_filter. tauto.
Qed.

Lemma checkpoint_lookback_witness :
  (exists checkpoint_date,
     latest_checkpoint checkpointed_db "r" = Some checkpoint_date
     /\ start_date checkpoint_date = checkpoint_date - 28 * 86400000000
     /\ forall pr, date_of_pr pr < start_date checkpoint_date ->
                   pr ∉ fetch_pull_requests checkpointed_db "r"
                          (latest_checkpoint checkpointed_db "r"))
  /\ latest_checkpoint lonely_pr_db "r" = None
  /\ fetch_pull_requests lonely_pr_db "r" (latest_checkpoint lonely_pr_db "r")
     = filter (fun pr => pr_repo_name pr = "r") (repo_pr_details lonely_pr_db).
Proof.
  split.
  - destruct (proj1 (checkpoint_lookback checkpointed_db "r")
                {| cp_repo_name := "r"; date_of_checkpoint := timedelta 90 |})
      as (m & Hm & _ & _ & Hstart & _ & Hold).
    + left.
    + reflexivity.
    + exists m. split; [exact Hm|]. split; [exact Hstart|exact Hold].
  - destruct (proj2 (checkpoint_lookback lonely_pr_db "r")) as (Hnone & Hfetch & _).
    + intros row Hrow. inversion Hrow.
    + split; [exact Hnone|exact Hfetch].
Defined.

(** ** Pair expander and dataset assembler: properties *)

Section AssemblerProperties.

Variable strftime : datetime -> string.

Lemma map_list_prod {A B C D E} (f : C * D -> E) (g : A -> C) (h : B -> D)
    (la : list A) (lb : list B) :
  map f (list_prod (map g la) (map h lb))
  = flat_map (fun a => map (fun b => f (g a, h b)) lb) la.
Proof.
  induction la as [|a la IH]; cbn [map list_prod flat_map]; [reflexivity|].
  rewrite map_app, IH, !map_map. reflexivity.
Qed.

Lemma length_flat_map_const {A B} (f : A -> list B) (n : nat) (l : list A) :
  Forall (fun a => List.length (f a) = n) l ->
  List.length (flat_map f l) = (List.length l * n)%nat.
Proof.
  induction 1 as [|a l Ha _ IH]; cbn [flat_map List.length]; [reflexivity|].
  rewrite length_app, Ha, IH. lia.
Qed.

(** The rows of one pull request are the rows of the pairs of its
    test-run rows with its file-change rows, test runs outermost. *)
Lemma rows_for_pr_closed files_changed_history test_runs_failure_history
    pr_files_changed_data pr_test_runs_data pr :
  rows_for_pr strftime files_changed_history test_runs_failure_history
              pr_files_changed_data pr_test_runs_data pr
  = flat_map
      (fun test_row =>
         map (feature_row strftime files_changed_history test_runs_failure_history
                          (Py.len (file_changes_of pr pr_files_changed_data))
                          pr test_row)
             (file_changes_of pr pr_files_changed_data))
      (test_runs_of pr pr_test_runs_data).
Proof.
  unfold rows_for_pr, test_runs_of, file_changes_of. cbn zeta.
  rewrite !map_map, map_list_prod.
  apply flat_map_ext. intros test_row. apply map_ext. intros file_row.
  cbn [fst snd test_case_file_path test_case_name actual_result].
  rewrite process_test_run_closed, process_file_change_closed.
  replace (Py.len (map files_paths_changed
                     (filter (fun row => fc_pr_link row = pr_link pr)
                             pr_files_changed_data)))
    with (Py.len (filter (fun row => fc_pr_link row = pr_link pr)
                         pr_files_changed_data))
    by (unfold Py.len; rewrite length_map; reflexivity).
  unfold feature_row.
  destruct (list_of_authors pr) as [[|a authors]|]; reflexivity.
Qed.

Lemma map_flat_map {A B C} (g : B -> C) (f : A -> list B) (l : list A) :
  map g (flat_map f l) = flat_map (fun a => map g (f a)) l.
Proof.
  induction l as [|a l IH]; cbn [flat_map map]; [reflexivity|].
  rewrite map_app, IH. reflexivity.
Qed.

Lemma map_const_repeat {A B} (c : B) (l : list A) :
  map (fun _ => c) l = repeat c (List.length l).
Proof. induction l as [|a l IH]; cbn; [reflexivity|]. rewrite IH. reflexivity. Qed.

Lemma length_flat_map_sum {A B} (f : A -> list B) (l : list A) :
  List.length (flat_map f l) = sum_list (map (fun a => List.length (f a)) l).
Proof.
  induction l as [|a l IH]; cbn [flat_map map]; [reflexivity|].
  rewrite length_app, IH. reflexivity.
Qed.

(** The expansion of one pull request, for any histories and any fetched
    rows. *)
Lemma rows_for_pr_expansion files_changed_history test_runs_failure_history
    pr_files_changed_data pr_test_runs_data pr :
  let rows :=
    rows_for_pr strftime files_changed_history test_runs_failure_history
                pr_files_changed_data pr_test_runs_data pr in
  let m := List.length (test_runs_of pr pr_test_runs_data) in
  let n := List.length (file_changes_of pr pr_files_changed_data) in
  List.length rows = (m * n)%nat
  /\ Forall (fun row => dict_get "num_files_changed" row = Some (VInt (Z.of_nat n))) rows
  /\ map (dict_get "actual_result") rows
     = flat_map
         (fun test_row => repeat (Some (VInt (label_of (tr_actual_result test_row)))) n)
         (test_runs_of pr pr_test_runs_data).
Proof.
  cbn zeta. rewrite rows_for_pr_closed.
  split; [|split].
  - apply length_flat_map_const.
    apply Forall_forall. intros test_row _. apply length_map.
  - apply List.Forall_flat_map.
    apply Forall_forall. intros test_row _.
    apply List.Forall_map.
    apply Forall_forall. intros file_row _. reflexivity.
  - rewrite map_flat_map. apply flat_map_ext. intros test_row.
    rewrite map_map. cbn [feature_row dict_get String.eqb Ascii.eqb Bool.eqb].
    apply map_const_repeat.
Qed.

(** Fetching by link keeps every row of a fetched pull request. *)
Lemma test_runs_of_fetched db pull_request_details pr :
  pr ∈ pull_request_details ->
  test_runs_of pr (fetch_test_runs db (map pr_link pull_request_details))
  = test_runs_of pr (pr_to_test_runs_mapping db).
Proof.
  intros Hin. unfold test_runs_of, fetch_test_runs.
  rewrite list_filter_filter. apply list_filter_iff. intros row.
  split; [tauto|]. intros Heq. split; [exact Heq|].
  rewrite Heq. apply list_elem_of_fmap. exists pr. split; [reflexivity|exact Hin].
Qed.

Lemma file_changes_of_fetched db pull_request_details pr :
  pr ∈ pull_request_details ->
  file_changes_of pr (fetch_files_changed db (map pr_link pull_request_details))
  = file_changes_of pr (pr_to_files_changed_mapping db).
Proof.
  intros Hin. unfold file_changes_of, fetch_files_changed.
  rewrite list_filter_filter. apply list_filter_iff. intros row.
  split; [tauto|]. intros Heq. split; [exact Heq|].
  rewrite Heq. apply list_elem_of_fmap. exists pr. split; [reflexivity|exact Hin].
Qed.

(** C3. In a processing pass, every fetched pull request with M test-run
    rows and N file-change rows in storage contributes exactly M * N rows,
    each with [num_files_changed] = N, and the labels of these rows are,
    test run by test run, the label of that test run repeated N times: 0
    for passed, 1 for failed. The rows accumulated for the repository are
    the rows of its pull requests put together. *)
Theorem pair_expansion (db : database) (repo_name : string)
    (checkpoint_date : option datetime) :
  let pull_request_details := fetch_pull_requests db repo_name checkpoint_date in
  let pull_request_links := map pr_link pull_request_details in
  let pr_files_changed_data := fetch_files_changed db pull_request_links in
  let pr_test_runs_data := fetch_test_runs db pull_request_links in
  let rows_of :=
    rows_for_pr strftime
      (build_files_changed_history pull_request_details pr_files_changed_data)
      (build_test_runs_failure_history pull_request_details pr_test_runs_data)
      pr_files_changed_data pr_test_runs_data in
  let m := fun pr => List.length (test_runs_of pr (pr_to_test_runs_mapping db)) in
  let n := fun pr => List.length (file_changes_of pr (pr_to_files_changed_mapping db)) in
  Forall
    (fun pr =>
       List.length (rows_of pr) = (m pr * n pr)%nat
       /\ Forall (fun row => dict_get "num_files_changed" row
                             = Some (VInt (Z.of_nat (n pr))))
                 (rows_of pr)
       /\ map (dict_get "actual_result") (rows_of pr)
          = flat_map
              (fun test_row =>
                 repeat (Some (VInt (label_of (tr_actual_result test_row)))) (n pr))
              (test_runs_of pr (pr_to_test_runs_mapping db)))
    pull_request_details
  /\ feature_rows strftime pull_request_details pr_files_changed_data pr_test_runs_data
     = flat_map rows_of pull_request_details
  /\ List.length
       (feature_rows strftime pull_request_details pr_files_changed_data
                     pr_test_runs_data)
     = sum_list (map (fun pr => (m pr * n pr)%nat) pull_request_details)
  /\ label_of "passed" = 0
  /\ label_of "failed" = 1.
Proof.
  cbn zeta.
  set (prs := fetch_pull_requests db repo_name checkpoint_date).
  assert (Hall :
    Forall
      (fun pr =>
         List.length
           (rows_for_pr strftime
              (build_files_changed_history prs
                 (fetch_files_changed db (map pr_link prs)))
              (build_test_runs_failure_history prs
                 (fetch_test_runs db (map pr_link prs)))
              (fetch_files_changed db (map pr_link prs))
              (fetch_test_runs db (map pr_link prs)) pr)
         = (List.length (test_runs_of pr (pr_to_test_runs_mapping db))
            * List.length (file_changes_of pr (pr_to_files_changed_mapping db)))%nat
         /\ Forall
              (fun row =>
                 dict_get "num_files_changed" row
                 = Some (VInt (Z.of_nat
                      (List.length
                         (file_changes_of pr (pr_to_files_changed_mapping db))))))
              (rows_for_pr strftime
                 (build_files_changed_history prs
                    (fetch_files_changed db (map pr_link prs)))
                 (build_test_runs_failure_history prs
                    (fetch_test_runs db (map pr_link prs)))
                 (fetch_files_changed db (map pr_link prs))
                 (fetch_test_runs db (map pr_link prs)) pr)
         /\ map (dict_get "actual_result")
              (rows_for_pr strftime
                 (build_files_changed_history prs
                    (fetch_files_changed db (map pr_link prs)))
                 (build_test_runs_failure_history prs
                    (fetch_test_runs db (map pr_link prs)))
                 (fetch_files_changed db (map pr_link prs))
                 (fetch_test_runs db (map pr_link prs)) pr)
            = flat_map
                (fun test_row =>
                   repeat (Some (VInt (label_of (tr_actual_result test_row))))
                     (List.length
                        (file_changes_of pr (pr_to_files_changed_mapping db))))
                (test_runs_of pr (pr_to_test_runs_mapping db)))
      prs).
  { apply Forall_forall. intros pr Hin.
    pose proof (rows_for_pr_expansion
                  (build_files_changed_history prs
                     (fetch_files_changed db (map pr_link prs)))
                  (build_test_runs_failure_history prs
                     (fetch_test_runs db (map pr_link prs)))
                  (fetch_files_changed db (map pr_link prs))
                  (fetch_test_runs db (map pr_link prs)) pr) as H.
    cbn zeta in H.
    rewrite (test_runs_of_fetched db prs pr Hin) in H.
    rewrite (file_changes_of_fetched db prs pr Hin) in H.
    exact H. }
  split; [exact Hall|].
  split; [reflexivity|].
  split; [|split; reflexivity].
  unfold feature_rows. rewrite length_flat_map_sum. f_equal.
  apply Forall_fmap_ext_1.
  eapply Forall_impl; [exact Hall|].
  intros pr (Hlen & _). exact Hlen.
Qed.

Lemma feature_rows_keys pull_request_details pr_files_changed_data pr_test_runs_data :
  Forall (fun row => dict_keys row = dataset_columns)
    (feature_rows strftime pull_request_details pr_files_changed_data
                  pr_test_runs_data).
Proof.
  unfold feature_rows.
  apply List.Forall_flat_map. apply Forall_forall. intros pr _.
  rewrite rows_for_pr_closed.
  apply List.Forall_flat_map. apply Forall_forall. intros test_row _.
  apply List.Forall_map. apply Forall_forall. intros file_row _.
  reflexivity.
Qed.

(** A row whose keys are the columns is written as its values, in order. *)
Lemma dict_to_list_columns row :
  dict_keys row = dataset_columns ->
  dict_to_list dataset_columns row = Returned (map snd row).
Proof.
  unfold dict_keys, dataset_columns. intros Hkeys.
  repeat (destruct row as [|[? ?] row]; [discriminate Hkeys|];
          cbn [map fst] in Hkeys; injection Hkeys as -> Hkeys).
  destruct row; [|discriminate Hkeys].
  reflexivity.
Qed.

Lemma writerows_columns rows :
  Forall (fun row => dict_keys row = dataset_columns) rows ->
  writerows dataset_columns rows = Returned (map (map snd) rows).
Proof.
  induction 1 as [|row rows Hrow _ IH]; cbn [writerows map]; [reflexivity|].
  rewrite (dict_to_list_columns row Hrow), IH. reflexivity.
Qed.

(** The three ways [process_data_for_repo] ends. *)
Lemma process_data_for_repo_cases db timestamp repo_name checkpoint_date fs :
  let pull_request_details := fetch_pull_requests db repo_name checkpoint_date in
  let pull_request_links := map pr_link pull_request_details in
  let feature_data :=
    feature_rows strftime pull_request_details
      (fetch_files_changed db pull_request_links)
      (fetch_test_runs db pull_request_links) in
  let output_file := "csv/" ++ repo_name ++ "_" ++ timestamp ++ ".csv" in
  process_data_for_repo strftime db timestamp repo_name checkpoint_date fs
  = match pull_request_details, feature_data with
    | [], _ => Returned (None, fs)
    | _ :: _, [] => Returned (Some output_file, fs)
    | _ :: _, _ :: _ =>
        Returned (Some output_file,
                  <[output_file := {| csv_header := dataset_columns;
                                      csv_rows := map (map snd) feature_data |}]> fs)
    end.
Proof.
  cbn zeta. unfold process_data_for_repo.
  destruct (fetch_pull_requests db repo_name checkpoint_date) as [|pr prs] eqn:Hprs;
    [reflexivity|].
  pose proof (feature_rows_keys (pr :: prs)
                (fetch_files_changed db (map pr_link (pr :: prs)))
                (fetch_test_runs db (map pr_link (pr :: prs)))) as Hkeys.
  destruct (feature_rows strftime (pr :: prs) _ _) as [|row rows] eqn:Hrows;
    [reflexivity|].
  inversion Hkeys as [|? ? Hrow _]; subst.
  rewrite Hrow, (writerows_columns _ Hkeys). reflexivity.
Qed.

(** C9. A processing pass never fails on the write; every row it
    accumulates has exactly the sixteen columns, in the stated order; the
    file it writes, if any, has these columns as its header row and one
    line per accumulated row holding the row's values in that order. *)
Theorem dataset_file_columns (db : database) (timestamp repo_name : string)
    (checkpoint_date : option datetime) (fs : gmap string csv_file) :
  dataset_columns
  = [ "test_case_file_path"; "test_case_name"; "actual_result";
      "failures_7_days"; "failures_14_days"; "failures_28_days";
      "file_name"; "file_extension"; "changes_3_days"; "changes_14_days";
      "distinct_author"; "common_tokens"; "minimal_distance";
      "num_files_changed"; "date_of_pr"; "pr_link" ]
  /\ Forall (fun row => dict_keys row = dataset_columns)
       (feature_rows strftime
          (fetch_pull_requests db repo_name checkpoint_date)
          (fetch_files_changed db
             (map pr_link (fetch_pull_requests db repo_name checkpoint_date)))
          (fetch_test_runs db
             (map pr_link (fetch_pull_requests db repo_name checkpoint_date))))
  /\ exists returned fs',
       process_data_for_repo strftime db timestamp repo_name checkpoint_date fs
       = Returned (returned, fs')
       /\ (fs' = fs
           \/ exists output_file lines,
                returned = Some output_file
                /\ fs' = <[output_file := {| csv_header := dataset_columns;
                                             csv_rows := lines |}]> fs
                /\ lines
                   = map (map snd)
                       (feature_rows strftime
                          (fetch_pull_requests db repo_name checkpoint_date)
                          (fetch_files_changed db
                             (map pr_link
                                (fetch_pull_requests db repo_name checkpoint_date)))
                          (fetch_test_runs db
                             (map pr_link
                                (fetch_pull_requests db repo_name checkpoint_date))))
                /\ lines <> []
                /\ Forall (fun line => List.length line = 16%nat) lines).
Proof.
  split; [reflexivity|].
  split; [apply feature_rows_keys|].
  pose proof (process_data_for_repo_cases db timestamp repo_name checkpoint_date fs)
    as Hcases. cbn zeta in Hcases.
  pose proof (feature_rows_keys
                (fetch_pull_requests db repo_name checkpoint_date)
                (fetch_files_changed db
                   (map pr_link (fetch_pull_requests db repo_name checkpoint_date)))
                (fetch_test_runs db
                   (map pr_link (fetch_pull_requests db repo_name checkpoint_date))))
    as Hkeys.
  destruct (fetch_pull_requests db repo_name checkpoint_date) as [|pr prs].
  { eexists _, _. split; [exact Hcases|]. left. reflexivity. }
  destruct (feature_rows strftime (pr :: prs) _ _) as [|row rows].
  { eexists _, _. split; [exact Hcases|]. left. reflexivity. }
  eexists _, _. split; [exact Hcases|]. right.
  eexists _, _. split; [reflexivity|]. split; [reflexivity|].
  split; [reflexivity|]. split; [discriminate|].
  apply List.Forall_map. eapply Forall_impl; [exact Hkeys|].
  intros r Hr. cbn beta. rewrite length_map.
  rewrite <- (length_map fst r). fold (dict_keys r). rewrite Hr. reflexivity.
Qed.

(** C5, at a repository with one pull request and no test run or file
    change: no row is accumulated and no file is written, yet the pass
    returns a file location, and [main] hands it to the trainer. *)
Theorem process_data_for_repo_path_without_rows :
  feature_rows strftime (fetch_pull_requests lonely_pr_db "r" None)
    (fetch_files_changed lonely_pr_db
       (map pr_link (fetch_pull_requests lonely_pr_db "r" None)))
    (fetch_test_runs lonely_pr_db
       (map pr_link (fetch_pull_requests lonely_pr_db "r" None)))
  = []
  /\ process_data_for_repo strftime lonely_pr_db "20240101000000" "r" None ∅
     = Returned (Some "csv/r_20240101000000.csv", ∅)
  /\ main strftime lonely_pr_db (fun _ => "20240101000000")
          {| files := ∅; trainer_calls := [] |}
     = Returned {| files := ∅;
                   trainer_calls := [("r", "csv/r_20240101000000.csv")] |}.
Proof. repeat split; vm_compute; reflexivity. Qed.

(** The rule behind it: with pull requests fetched and no row
    accumulated, the location is returned and nothing is written; only an
    empty fetch returns nothing. *)
Lemma process_data_for_repo_no_rows db timestamp repo_name checkpoint_date fs :
  fetch_pull_requests db repo_name checkpoint_date <> [] ->
  feature_rows strftime
    (fetch_pull_requests db repo_name checkpoint_date)
    (fetch_files_changed db
       (map pr_link (fetch_pull_requests db repo_name checkpoint_date)))
    (fetch_test_runs db
       (map pr_link (fetch_pull_requests db repo_name checkpoint_date)))
  = [] ->
  process_data_for_repo strftime db timestamp repo_name checkpoint_date fs
  = Returned (Some ("csv/" ++ repo_name ++ "_" ++ timestamp ++ ".csv"), fs).
Proof.
  intros Hprs Hrows.
  rewrite process_data_for_repo_cases. cbn zeta. rewrite Hrows.
  destruct (fetch_pull_requests db repo_name checkpoint_date); [congruence|reflexivity].
Qed.

(** The worked expansion: two test runs and three file changes give six
    rows, each with [num_files_changed] = 3 and the label of its own test
    run. *)
Example two_by_three_expansion :
  let pull_request_details := fetch_pull_requests two_by_three_db "r" None in
  let pull_request_links := map pr_link pull_request_details in
  let rows :=
    feature_rows strftime pull_request_details
      (fetch_files_changed two_by_three_db pull_request_links)
      (fetch_test_runs two_by_three_db pull_request_links) in
  List.length rows = 6%nat
  /\ map (dict_get "num_files_changed") rows = repeat (Some (VInt 3)) 6
  /\ map (dict_get "actual_result") rows
     = [ Some (VInt 1); Some (VInt 1); Some (VInt 1);
         Some (VInt 0); Some (VInt 0); Some (VInt 0) ]
  /\ map (dict_get "file_name") rows
     = [ Some (VStr "a/b/c"); Some (VStr "a/x"); Some (VStr "README");
         Some (VStr "a/b/c"); Some (VStr "a/x"); Some (VStr "README") ].
Proof. cbn zeta. repeat split; vm_compute; reflexivity. Qed.

End AssemblerProperties.

(** * Further properties of the code *)

(** ** Path similarity scorer *)

Section PathSimilarityBounds.

Lemma directory_distance_spec_ge_2 a b : 2 <= directory_distance_spec a b.
Proof.
  unfold directory_distance_spec.
  pose proof (len_split_pos a) as Ha. pose proof (len_split_pos b) as Hb.
  pose proof (matching_prefix_le
                (scan_range (Py.str_split_slash a) (Py.str_split_slash b))
                (Py.str_split_slash a) (Py.str_split_slash b)) as Hle.
  unfold scan_range in *. lia.
Qed.

Lemma foldr_min_bounds (l : list Z) :
  Forall (fun x => 2 <= x) l -> 2 <= foldr Z.min 1000 l <= 1000.
Proof.
  induction 1 as [|x l Hx _ IH]; cbn [foldr]; lia.
Qed.

Lemma matching_prefix_refl n l :
  matching_prefix n l l = Nat.min n (List.length l).
Proof.
  revert l. induction n as [|n IH]; intros [|x l]; cbn [matching_prefix List.length];
    try reflexivity.
  rewrite String.eqb_refl, IH. reflexivity.
Qed.

Lemma matching_prefix_common l r1 r2 :
  matching_prefix (List.length l) (l ++ r1)%list (l ++ r2)%list = List.length l.
Proof.
  induction l as [|x l IH]; cbn [app List.length matching_prefix]; [reflexivity|].
  rewrite String.eqb_refl, IH. reflexivity.
Qed.

(** Cutting at a separator: the pieces before it, then the pieces after. *)
Lemma split_on_app_sep is_sep a c b :
  is_sep c = true ->
  Py.split_on is_sep (a ++ String c b)
  = (Py.split_on is_sep a ++ Py.split_on is_sep b)%list.
Proof.
  intros Hc. induction a as [|x a IH]; simpl.
  - rewrite Hc. reflexivity.
  - destruct (is_sep x); [rewrite IH; reflexivity|].
    rewrite IH.
    pose proof (split_on_nonempty is_sep a) as Hne.
    destruct (Py.split_on is_sep a) as [|piece pieces]; [congruence|reflexivity].
Qed.

Lemma split_slash_no_slash f :
  contains "/"%char f = false -> Py.str_split_slash f = [f].
Proof.
  unfold Py.str_split_slash, Py.is_slash.
  induction f as [|x f IH]; cbn [contains Py.split_on]; [reflexivity|].
  intros H. apply orb_false_elim in H as [Hx Hf].
  rewrite Hx, (IH Hf). reflexivity.
Qed.

End PathSimilarityBounds.

Lemma minimal_distance_range changed_file_path test_file_path :
  2 <= calculate_minimal_distance changed_file_path test_file_path <= 1000.
Proof.
  unfold calculate_minimal_distance.
  destruct (negb (changed_truthy changed_file_path) || negb (Py.truthy test_file_path));
    [lia|].
  cbn zeta. rewrite fold_left_min.
  apply foldr_min_bounds. apply List.Forall_map. apply Forall_forall.
  intros [f] _. rewrite entry_distance_spec. apply directory_distance_spec_ge_2.
Qed.

(** X1. Whatever the two arguments, the distance lies between 2 and 1000:
    the prefix credit never brings it below 2, and 1000 caps it. *)
Theorem calculate_minimal_distance_bounds (changed_file_path : changed_files_arg)
    (test_file_path : option string) :
  2 <= calculate_minimal_distance changed_file_path test_file_path <= 1000.
Proof. apply minimal_distance_range. Qed.

(** X2. A non-empty path is at distance 2 from itself, and so are two
    paths that name files of the same directory. *)
Theorem calculate_minimal_distance_same_directory (dir f1 f2 : string) :
  contains "/"%char f1 = false ->
  contains "/"%char f2 = false ->
  calculate_minimal_distance (OnePath (dir ++ "/" ++ f1)) (Some (dir ++ "/" ++ f2)) = 2
  /\ (forall c a,
        calculate_minimal_distance (OnePath (String c a)) (Some (String c a)) = 2).
Proof.
  intros H1 H2. split.
  - rewrite minimal_distance_one_path by (destruct dir; discriminate).
    unfold directory_distance_spec, Py.str_split_slash.
    change (dir ++ "/" ++ f1) with (dir ++ String "/"%char f1).
    change (dir ++ "/" ++ f2) with (dir ++ String "/"%char f2).
    rewrite !split_on_app_sep by reflexivity.
    fold (Py.str_split_slash f1). fold (Py.str_split_slash f2).
    rewrite (split_slash_no_slash f1 H1), (split_slash_no_slash f2 H2).
    set (parts := Py.split_on Py.is_slash dir).
    assert (Hrange : scan_range (parts ++ [f1])%list (parts ++ [f2])%list
                     = List.length parts).
    { unfold scan_range, Py.len. rewrite !length_app. cbn [List.length]. lia. }
    rewrite Hrange, matching_prefix_common.
    unfold Py.len. rewrite !length_app. cbn [List.length]. lia.
  - intros c a. rewrite minimal_distance_one_path by discriminate.
    unfold directory_distance_spec. rewrite matching_prefix_refl.
    pose proof (len_split_pos (String c a)) as Hpos.
    unfold scan_range, Py.len in *. lia.
Qed.

Lemma calculate_minimal_distance_same_directory_witness :
  calculate_minimal_distance (OnePath ("src/app" ++ "/" ++ "db.py"))
                             (Some ("src/app" ++ "/" ++ "test_db.py")) = 2.
Proof.
  apply (calculate_minimal_distance_same_directory "src/app" "db.py" "test_db.py");
    reflexivity.
Defined.

(** X3. The token count is never negative and never exceeds the number of
    tokens of either path; a path shares all its tokens with itself; the
    count is 0 exactly when the two paths have no token in common. *)
Theorem calculate_common_tokens_bounds (a b : string) :
  0 <= calculate_common_tokens (Some a) (Some b) <= Z.of_nat (size (tokens a))
  /\ calculate_common_tokens (Some a) (Some b) <= Z.of_nat (size (tokens b))
  /\ calculate_common_tokens (Some a) (Some a) = Z.of_nat (size (tokens a))
  /\ (calculate_common_tokens (Some a) (Some b) = 0
      <-> forall t, ~ (t ∈ tokens a /\ t ∈ tokens b)).
Proof.
  assert (Hsize : forall x y,
             calculate_common_tokens (Some x) (Some y)
             = Z.of_nat (size (tokens x ∩ tokens y))).
  { intros x y. unfold calculate_common_tokens.
    destruct x as [|cx x], y as [|cy y]; cbn [Py.truthy negb orb default];
      try reflexivity;
      change (tokens "") with (∅ : gset string);
      rewrite ?intersection_empty_l_L, ?intersection_empty_r_L, ?size_empty;
      reflexivity. }
  rewrite !Hsize.
  pose proof (subseteq_size (tokens a ∩ tokens b) (tokens a)
                (intersection_subseteq_l _ _)) as Hl.
  pose proof (subseteq_size (tokens a ∩ tokens b) (tokens b)
                (intersection_subseteq_r _ _)) as Hr.
  split; [lia|]. split; [lia|]. split.
  - rewrite (idemp_L (∩)). reflexivity.
  - split.
    + intros H0 t [Ha Hb].
      assert (Hempty : tokens a ∩ tokens b ≡ ∅) by (apply size_empty_iff; lia).
      set_solver.
    + intros Hnone.
      assert (Hempty : tokens a ∩ tokens b ≡ ∅).
      { apply elem_of_equiv_empty. intros t Ht.
        apply elem_of_intersection in Ht. exact (Hnone t Ht). }
      apply size_empty_iff in Hempty. lia.
Qed.

(** ** Test-case keys *)

Lemma string_app_nil (s : string) : "" ++ s = s.
Proof. reflexivity. Qed.

Lemma string_app_cons (x : ascii) (p s : string) : String x p ++ s = String x (p ++ s).
Proof. reflexivity. Qed.

Ltac norm_app :=
  repeat (rewrite string_app_cons || rewrite string_app_nil).

Ltac norm_app_in H :=
  repeat (rewrite string_app_cons in H || rewrite string_app_nil in H).

Lemma get_test_run_key_injective_aux p1 :
  forall n1 p2 n2,
    contains ":"%char p1 = false ->
    contains ":"%char p2 = false ->
    p1 ++ "::::" ++ n1 = p2 ++ "::::" ++ n2 ->
    p1 = p2 /\ n1 = n2.
Proof.
  induction p1 as [|x p1 IH]; intros n1 p2 n2 H1 H2 Heq.
  - destruct p2 as [|y p2]; norm_app_in Heq.
    + inversion Heq. split; reflexivity.
    + inversion Heq as [[Hy Hrest]]. subst y. simpl in H2. discriminate H2.
  - destruct p2 as [|y p2]; norm_app_in Heq.
    + inversion Heq as [[Hx Hrest]]. subst x. simpl in H1. discriminate H1.
    + inversion Heq as [[Hx Hrest]]. subst y.
      simpl in H1, H2.
      apply orb_false_elim in H1 as [_ H1]. apply orb_false_elim in H2 as [_ H2].
      destruct (IH n1 p2 n2 H1 H2 Hrest) as [-> ->]. split; reflexivity.
Qed.

(** X4. Two test cases whose file paths hold no colon get the same key only
    if they have the same file path and the same name. *)
Theorem get_test_run_key_injective (path1 name1 path2 name2 : string) :
  contains ":"%char path1 = false ->
  contains ":"%char path2 = false ->
  get_test_run_key path1 name1 = get_test_run_key path2 name2 ->
  path1 = path2 /\ name1 = name2.
Proof. unfold get_test_run_key. apply get_test_run_key_injective_aux. Qed.

Lemma get_test_run_key_injective_witness :
  "tests/test_a.py" = "tests/test_a.py" /\ "test_x" = "test_x".
Proof.
  apply (get_test_run_key_injective "tests/test_a.py" "test_x" "tests/test_a.py" "test_x");
    reflexivity.
Defined.

(** X5. Without that condition keys do collide: a test case whose path ends
    where another's name begins, around the separator, has the same key. *)
Theorem get_test_run_key_collision (path middle name : string) :
  get_test_run_key (path ++ "::::" ++ middle) name
  = get_test_run_key path (middle ++ "::::" ++ name)
  /\ (path ++ "::::" ++ middle <> path).
Proof.
  unfold get_test_run_key. split.
  - induction path as [|x path IH]; norm_app; [reflexivity|].
    f_equal. exact IH.
  - induction path as [|x path IH]; norm_app; [discriminate|].
    intros H. inversion H as [Hp]. exact (IH Hp).
Qed.

(** ** Feature synthesizer *)

Section SynthesizerProperties.

Lemma count_after_perm bound (l l' : list Z) :
  l ≡ₚ l' -> count_after bound l = count_after bound l'.
Proof.
  induction 1 as [|x l l' _ IH|x y l|l l' l'' _ IH1 _ IH2];
    rewrite ?count_after_cons; lia.
Qed.

Lemma count_on_or_after_perm bound (l l' : list Z) :
  l ≡ₚ l' -> count_on_or_after bound l = count_on_or_after bound l'.
Proof.
  induction 1 as [|x l l' _ IH|x y l|l l' l'' _ IH1 _ IH2];
    rewrite ?count_on_or_after_cons; lia.
Qed.

Lemma count_after_shift bound delta (l : list Z) :
  count_after (bound + delta) (map (fun d => d + delta) l) = count_after bound l.
Proof.
  induction l as [|x l IH]; [reflexivity|].
  cbn [map]. rewrite !count_after_cons, IH.
  destruct (Z.gtb_spec (x + delta) (bound + delta)); destruct (Z.gtb_spec x bound); lia.
Qed.

Lemma count_on_or_after_shift bound delta (l : list Z) :
  count_on_or_after (bound + delta) (map (fun d => d + delta) l)
  = count_on_or_after bound l.
Proof.
  induction l as [|x l IH]; [reflexivity|].
  cbn [map]. rewrite !count_on_or_after_cons, IH.
  destruct (Z.geb_spec (x + delta) (bound + delta)); destruct (Z.geb_spec x bound); lia.
Qed.

Lemma count_after_range bound (l : list Z) :
  0 <= count_after bound l <= Py.len l.
Proof.
  induction l as [|x l IH]; [unfold count_after, Py.len; cbn; lia|].
  rewrite count_after_cons. unfold Py.len in *. cbn [List.length].
  destruct (x >? bound); lia.
Qed.

Lemma count_on_or_after_range bound (l : list Z) :
  0 <= count_on_or_after bound l <= Py.len l.
Proof.
  induction l as [|x l IH]; [unfold count_on_or_after, Py.len; cbn; lia|].
  rewrite count_on_or_after_cons. unfold Py.len in *. cbn [List.length].
  destruct (x >=? bound); lia.
Qed.

Lemma count_after_elem bound x (l : list Z) :
  x ∈ l -> bound < x -> 1 <= count_after bound l.
Proof.
  intros Hin Hlt. induction Hin as [x l|x y l _ IH].
  - rewrite count_after_cons. pose proof (count_after_range bound l).
    destruct (Z.gtb_spec x bound); lia.
  - rewrite count_after_cons. destruct (y >? bound); lia.
Qed.

Lemma count_on_or_after_elem bound x (l : list Z) :
  x ∈ l -> bound <= x -> 1 <= count_on_or_after bound l.
Proof.
  intros Hin Hle. induction Hin as [x l|x y l _ IH].
  - rewrite count_on_or_after_cons. pose proof (count_on_or_after_range bound l).
    destruct (Z.geb_spec x bound); lia.
  - rewrite count_on_or_after_cons. destruct (y >=? bound); lia.
Qed.

End SynthesizerProperties.

(** X6. The synthesized records do not depend on the order in which the
    historical dates are listed. *)
Theorem synthesizers_order_independent (test_run : test_run) (file_path : string)
    (pr_date : datetime) (dates dates' : list datetime) :
  dates ≡ₚ dates' ->
  process_test_run test_run pr_date dates = process_test_run test_run pr_date dates'
  /\ process_file_change file_path pr_date dates
     = process_file_change file_path pr_date dates'.
Proof.
  intros Hperm. rewrite !process_test_run_closed, !process_file_change_closed.
  rewrite !(count_after_perm _ dates dates' Hperm).
  rewrite !(count_on_or_after_perm _ dates dates' Hperm).
  split; reflexivity.
Qed.

Lemma synthesizers_order_independent_witness :
  process_test_run
    {| test_case_file_path := "t.py"; test_case_name := "t"; actual_result := "failed" |}
    (timedelta 10) [timedelta 9; timedelta 1]
  = process_test_run
      {| test_case_file_path := "t.py"; test_case_name := "t"; actual_result := "failed" |}
      (timedelta 10) [timedelta 1; timedelta 9].
Proof.
  apply (synthesizers_order_independent
           {| test_case_file_path := "t.py"; test_case_name := "t";
              actual_result := "failed" |}
           "a.py" (timedelta 10) [timedelta 9; timedelta 1] [timedelta 1; timedelta 9]).
  apply perm_swap.
Defined.

(** X7. Moving the PR date and every historical date by the same amount
    changes neither record: only the distances in time matter. *)
Theorem synthesizers_shift_invariant (test_run : test_run) (file_path : string)
    (pr_date delta : Z) (dates : list datetime) :
  process_test_run test_run (pr_date + delta) (map (fun d => d + delta) dates)
    = process_test_run test_run pr_date dates
  /\ process_file_change file_path (pr_date + delta) (map (fun d => d + delta) dates)
     = process_file_change file_path pr_date dates.
Proof.
  rewrite !process_test_run_closed, !process_file_change_closed.
  assert (Hb : forall w, pr_date + delta - timedelta w = pr_date - timedelta w + delta)
    by (intros w; lia).
  rewrite !Hb, !count_after_shift, !count_on_or_after_shift.
  split; reflexivity.
Qed.

(** X8. [process_test_run] copies the test case's path and name, sets the
    label to 0 exactly when the result is ["passed"] and to 1 otherwise,
    and its keys are the six it starts from; every counter of either
    synthesizer lies between 0 and the number of dates it was given. *)
Theorem synthesizers_fields_and_ranges (test_run : test_run) (file_path : string)
    (pr_date : datetime) (dates : list datetime) :
  dict_get "test_case_file_path" (process_test_run test_run pr_date dates)
    = Some (VStr (test_case_file_path test_run))
  /\ dict_get "test_case_name" (process_test_run test_run pr_date dates)
     = Some (VStr (test_case_name test_run))
  /\ (exists label,
        dict_get "actual_result" (process_test_run test_run pr_date dates)
          = Some (VInt label)
        /\ (label = 0 \/ label = 1)
        /\ (label = 0 <-> actual_result test_run = "passed"))
  /\ dict_keys (process_test_run test_run pr_date dates)
     = [ "test_case_file_path"; "test_case_name"; "actual_result";
         "failures_7_days"; "failures_14_days"; "failures_28_days" ]
  /\ dict_keys (process_file_change file_path pr_date dates)
     = [ "file_name"; "file_extension"; "changes_3_days"; "changes_14_days" ]
  /\ (exists n28,
        dict_get "failures_28_days" (process_test_run test_run pr_date dates)
          = Some (VInt n28)
        /\ 0 <= n28 <= Py.len dates)
  /\ (exists n14,
        dict_get "changes_14_days" (process_file_change file_path pr_date dates)
          = Some (VInt n14)
        /\ 0 <= n14 <= Py.len dates).
Proof.
  rewrite !process_test_run_closed, !process_file_change_closed.
  split; [reflexivity|]. split; [reflexivity|].
  split.
  { exists (label_of (actual_result test_run)). split; [reflexivity|].
    unfold label_of.
    destruct (String.eqb_spec (actual_result test_run) "passed") as [Heq|Hne].
    - split; [left; reflexivity|]. split; [intros _; exact Heq|reflexivity].
    - split; [right; reflexivity|]. split; [discriminate|]. intros H. contradiction. }
  split; [reflexivity|]. split; [reflexivity|].
  split.
  - eexists. split; [reflexivity|]. apply count_after_range.
  - eexists. split; [reflexivity|]. apply count_on_or_after_range.
Qed.

(** ** Stem and extension *)

Section Splitext.

Lemma string_length_app (a b : string) :
  String.length (a ++ b) = (String.length a + String.length b)%nat.
Proof.
  induction a as [|x a IH]; norm_app; [reflexivity|].
  cbn [String.length]. rewrite IH. reflexivity.
Qed.

Lemma contains_app c (a b : string) :
  contains c (a ++ b) = contains c a || contains c b.
Proof.
  induction a as [|x a IH]; norm_app; [reflexivity|].
  cbn [contains]. rewrite IH, orb_assoc. reflexivity.
Qed.

Lemma substring_prefix (pre s : string) :
  String.substring 0 (String.length pre) (pre ++ s) = pre.
Proof.
  induction pre as [|x pre IH]; norm_app.
  - destruct s; reflexivity.
  - cbn [String.length String.substring]. rewrite IH. reflexivity.
Qed.

Lemma substring_all (s : string) : String.substring 0 (String.length s) s = s.
Proof.
  induction s as [|x s IH]; [reflexivity|].
  cbn [String.length String.substring]. rewrite IH. reflexivity.
Qed.

Lemma substring_suffix (pre s : string) :
  String.substring (String.length pre) (String.length s) (pre ++ s) = s.
Proof.
  induction pre as [|x pre IH]; norm_app.
  - apply substring_all.
  - cbn [String.length String.substring]. exact IH.
Qed.

(** [rfind] finds nothing when the character is absent, and otherwise the
    place after which it no longer occurs. *)
Lemma rfind_from_cases c (s : string) :
  forall i acc,
    (contains c s = false /\ Py.rfind_from c s i acc = acc)
    \/ (exists pre post,
          s = pre ++ String c post
          /\ contains c post = false
          /\ Py.rfind_from c s i acc = i + Z.of_nat (String.length pre)).
Proof.
  induction s as [|x s IH]; intros i acc; cbn [Py.rfind_from contains].
  - left. split; reflexivity.
  - destruct (Ascii.eqb x c) eqn:E.
    + apply Ascii.eqb_eq in E. subst x.
      destruct (IH (i + 1) i) as [[Hnone Hr]|(pre & post & Hs & Hpost & Hr)];
        rewrite Hr; right.
      * exists "", s. norm_app. cbn [String.length].
        split; [reflexivity|]. split; [exact Hnone|lia].
      * exists (String c pre), post. norm_app. cbn [String.length].
        split; [rewrite Hs; reflexivity|]. split; [exact Hpost|lia].
    + destruct (IH (i + 1) acc) as [[Hnone Hr]|(pre & post & Hs & Hpost & Hr)];
        rewrite Hr.
      * left. rewrite Hnone. split; reflexivity.
      * right. exists (String x pre), post. norm_app. cbn [String.length].
        split; [rewrite Hs; reflexivity|]. split; [exact Hpost|lia].
Qed.

(** Two ways of cutting the same string, the first cut being earlier. *)
Lemma app_eq_app_lt (a : string) :
  forall b c d,
    a ++ b = c ++ d ->
    (String.length a < String.length c)%nat ->
    exists x m, b = String x m ++ d.
Proof.
  induction a as [|y a IH]; intros b c d Heq Hlt.
  - norm_app_in Heq. destruct c as [|x c]; [cbn in Hlt; lia|].
    exists x, c. exact Heq.
  - destruct c as [|x c]; [cbn in Hlt; lia|].
    norm_app_in Heq. inversion Heq as [[Hxy Hrest]].
    apply (IH b c d Hrest). cbn [String.length] in Hlt. lia.
Qed.

(** What [splitext] returns: either the path and no extension, or the two
    sides of the last dot, the right side free of dots and slashes. *)
Lemma splitext_cases (p : string) :
  Py.splitext p = (p, "")
  \/ exists stem tail,
       p = stem ++ String "."%char tail
       /\ Py.splitext p = (stem, String "."%char tail)
       /\ contains "."%char tail = false
       /\ contains "/"%char tail = false.
Proof.
  unfold Py.splitext, Py.rfind.
  destruct (rfind_from_cases "."%char p 0 (-1))
    as [[_ Hdot]|(stem & tail & Hp & Htail & Hdot)].
  { rewrite Hdot.
    destruct (rfind_from_cases "/"%char p 0 (-1))
      as [[_ Hsep]|(pre & post & _ & _ & Hsep)]; rewrite Hsep.
    - left. reflexivity.
    - left. destruct (0 + Z.of_nat (String.length pre) <? -1) eqn:E; [lia|reflexivity]. }
  rewrite Hdot.
  match goal with
  | |- (if ?cond then _ else _) = _ \/ _ => destruct cond eqn:Hcond
  end; [|left; reflexivity].
  right. exists stem, tail.
  apply andb_prop in Hcond as [Hlt _]. apply Z.ltb_lt in Hlt.
  split; [exact Hp|]. split.
  - unfold Py.slice. f_equal.
    + replace (Z.to_nat 0) with 0%nat by reflexivity.
      replace (Z.to_nat (0 + Z.of_nat (String.length stem) - 0))
        with (String.length stem) by lia.
      rewrite Hp. apply substring_prefix.
    + replace (Z.to_nat (0 + Z.of_nat (String.length stem)))
        with (String.length stem) by lia.
      replace (Z.to_nat (Z.of_nat (String.length p)
                         - (0 + Z.of_nat (String.length stem))))
        with (String.length (String "."%char tail))
        by (rewrite Hp, string_length_app; lia).
      rewrite Hp. apply substring_suffix.
  - split; [exact Htail|].
    destruct (rfind_from_cases "/"%char p 0 (-1))
      as [[Hnone _]|(pre & post & Hp' & Hpost & Hsep)].
    + rewrite Hp, contains_app in Hnone.
      apply orb_false_elim in Hnone as [_ Hnone].
      cbn [contains] in Hnone. apply orb_false_elim in Hnone as [_ Hnone].
      exact Hnone.
    + rewrite Hsep in Hlt.
      assert (Hcut : pre ++ String "/"%char post = stem ++ String "."%char tail)
        by congruence.
      destruct (app_eq_app_lt pre (String "/"%char post) stem (String "."%char tail)
                  Hcut ltac:(lia)) as (x & m & Hm).
      norm_app_in Hm. inversion Hm as [[Hx Hpost']].
      rewrite Hpost', contains_app in Hpost.
      apply orb_false_elim in Hpost as [_ Hpost].
      cbn [contains] in Hpost. apply orb_false_elim in Hpost as [_ Hpost].
      exact Hpost.
Qed.

End Splitext.

(** X9. The stem and the extension that [process_file_change] emits
    recompose the path: either the extension is empty and the stem is the
    whole path, or the path is the stem, a dot and the extension. The
    extension holds neither a dot nor a slash. *)
Theorem process_file_change_stem_extension (file_path : string) (pr_date : datetime)
    (change_dates : list datetime) :
  exists file_name file_extension,
    dict_get "file_name" (process_file_change file_path pr_date change_dates)
      = Some (VStr file_name)
    /\ dict_get "file_extension" (process_file_change file_path pr_date change_dates)
       = Some (VStr file_extension)
    /\ ((file_extension = "" /\ file_path = file_name)
        \/ file_path = file_name ++ "." ++ file_extension)
    /\ contains "."%char file_extension = false
    /\ contains "/"%char file_extension = false.
Proof.
  rewrite process_file_change_closed.
  exists (fst (Py.splitext file_path)),
         (extension_without_dot (snd (Py.splitext file_path))).
  split; [reflexivity|]. split; [reflexivity|].
  destruct (splitext_cases file_path)
    as [Hsame|(stem & tail & Hp & Hsplit & Hdot & Hsep)].
  - rewrite Hsame. cbn [fst snd extension_without_dot contains].
    split; [left; split; reflexivity|]. split; reflexivity.
  - rewrite Hsplit. cbn [fst snd extension_without_dot].
    split; [right; exact Hp|]. split; assumption.
Qed.

(** ** History aggregator *)

Section HistoryProperties.

Lemma lookup_history_touch_eq key (h : gmap string (list Z)) :
  history_touch key h !! key = Some (default [] (h !! key)).
Proof.
  unfold history_touch. destruct (h !! key) as [l|] eqn:E.
  - rewrite E. reflexivity.
  - apply lookup_insert_eq.
Qed.

Lemma lookup_history_touch_ne key key' (h : gmap string (list Z)) :
  key <> key' -> history_touch key h !! key' = h !! key'.
Proof.
  intros Hne. unfold history_touch. destruct (h !! key); [reflexivity|].
  apply lookup_insert_ne. exact Hne.
Qed.

Lemma lookup_history_append_eq key date (h : gmap string (list Z)) :
  history_append key date h !! key = Some (default [] (h !! key) ++ [date])%list.
Proof. unfold history_append. apply lookup_insert_eq. Qed.

Lemma lookup_history_append_ne key key' date (h : gmap string (list Z)) :
  key <> key' -> history_append key date h !! key' = h !! key'.
Proof. intros Hne. unfold history_append. apply lookup_insert_ne. exact Hne. Qed.

(** One step of either grouping loop, seen from a key: the row's key gets
    an entry, extended by the row's date when there is one. *)
Lemma history_step_lookup key key' (date : option Z) (h : gmap string (list Z)) :
  match date with
  | Some d => history_append key d (history_touch key h)
  | None => history_touch key h
  end !! key'
  = if decide (key = key')
    then Some (default [] (h !! key') ++ option_list date)%list
    else h !! key'.
Proof.
  destruct (decide (key = key')) as [<-|Hne].
  - destruct date as [d|]; cbn [option_list].
    + rewrite lookup_history_append_eq, lookup_history_touch_eq. reflexivity.
    + rewrite lookup_history_touch_eq, app_nil_r. reflexivity.
  - destruct date as [d|].
    + rewrite lookup_history_append_ne, lookup_history_touch_ne by exact Hne.
      reflexivity.
    + apply lookup_history_touch_ne. exact Hne.
Qed.

(** A grouping loop over rows with keys [key_of] and optional dates
    [date_of], started from any index. *)
Lemma history_fold_lookup {R} (key_of : R -> string) (date_of : R -> option Z)
    (rows : list R) :
  forall (h : gmap string (list Z)) key,
    fold_left
      (fun h row =>
         match date_of row with
         | Some d => history_append (key_of row) d (history_touch (key_of row) h)
         | None => history_touch (key_of row) h
         end)
      rows h !! key
    = match h !! key, filter (fun row => key_of row = key) rows with
      | None, [] => None
      | o, l => Some (default [] o ++ omap date_of l)%list
      end.
Proof.
  induction rows as [|row rows IH]; intros h key; cbn [fold_left].
  - rewrite filter_nil. destruct (h !! key); cbn; rewrite ?app_nil_r; reflexivity.
  - rewrite IH, history_step_lookup, filter_cons.
    destruct (decide (key_of row = key)) as [Heq|Hne].
    + destruct (date_of row) as [d|] eqn:Hd; destruct (h !! key) as [l|];
        destruct (filter (fun row0 => key_of row0 = key) rows) as [|r rs];
        repeat (simpl; rewrite ?Hd, <- ?app_assoc, ?app_nil_r); reflexivity.
    + reflexivity.
Qed.

Lemma fold_left_pointwise {A B} (f g : A -> B -> A) (l : list B) :
  (forall a b, f a b = g a b) -> forall a, fold_left f l a = fold_left g l a.
Proof.
  intros Hfg. induction l as [|b l IH]; intros a; cbn [fold_left]; [reflexivity|].
  rewrite Hfg. apply IH.
Qed.

Lemma build_files_changed_history_fold pull_request_details pr_files_changed_data :
  build_files_changed_history pull_request_details pr_files_changed_data
  = fold_left
      (fun h row =>
         match changed_date_of pull_request_details (fc_pr_link row) with
         | Some d =>
             history_append (files_paths_changed row) d
               (history_touch (files_paths_changed row) h)
         | None => history_touch (files_paths_changed row) h
         end)
      pr_files_changed_data ∅.
Proof. reflexivity. Qed.

Lemma build_test_runs_failure_history_fold pull_request_details pr_test_runs_data :
  build_test_runs_failure_history pull_request_details pr_test_runs_data
  = fold_left
      (fun h row =>
         match
           (if String.eqb (tr_actual_result row) "failed"
            then changed_date_of pull_request_details (tr_pr_link row)
            else None)
         with
         | Some d =>
             history_append
               (get_test_run_key (tr_test_case_file_path row) (tr_test_case_name row)) d
               (history_touch
                  (get_test_run_key (tr_test_case_file_path row) (tr_test_case_name row))
                  h)
         | None =>
             history_touch
               (get_test_run_key (tr_test_case_file_path row) (tr_test_case_name row)) h
         end)
      pr_test_runs_data ∅.
Proof.
  unfold build_test_runs_failure_history.
  apply fold_left_pointwise. intros h row.
  destruct (String.eqb (tr_actual_result row) "failed"); reflexivity.
Qed.

End HistoryProperties.

Lemma omap_failed_rows (date_of : test_run_row -> option Z) (rows : list test_run_row) :
  omap (fun row => if String.eqb (tr_actual_result row) "failed"
                   then date_of row else None) rows
  = omap date_of (filter (fun row => tr_actual_result row = "failed") rows).
Proof.
  induction rows as [|row rows IH]; [reflexivity|].
  rewrite filter_cons. cbn [omap list_omap].
  destruct (String.eqb_spec (tr_actual_result row) "failed") as [Heq|Hne];
    destruct (decide (tr_actual_result row = "failed")); try contradiction.
  - cbn [omap list_omap]. rewrite IH. reflexivity.
  - exact IH.
Qed.

Lemma files_history_lookup pull_request_details pr_files_changed_data path :
  build_files_changed_history pull_request_details pr_files_changed_data !! path
  = match filter (fun row => files_paths_changed row = path) pr_files_changed_data with
    | [] => None
    | rows =>
        Some (omap (fun row => changed_date_of pull_request_details (fc_pr_link row))
                   rows)
    end.
Proof.
  rewrite build_files_changed_history_fold.
  rewrite (history_fold_lookup files_paths_changed
             (fun row => changed_date_of pull_request_details (fc_pr_link row))).
  rewrite lookup_empty. reflexivity.
Qed.

Lemma failure_history_lookup pull_request_details pr_test_runs_data key :
  build_test_runs_failure_history pull_request_details pr_test_runs_data !! key
  = match
      filter (fun row => get_test_run_key (tr_test_case_file_path row)
                                          (tr_test_case_name row) = key)
             pr_test_runs_data
    with
    | [] => None
    | rows =>
        Some (omap (fun row => changed_date_of pull_request_details (tr_pr_link row))
                   (filter (fun row => tr_actual_result row = "failed") rows))
    end.
Proof.
  rewrite build_test_runs_failure_history_fold.
  rewrite (history_fold_lookup
             (fun row => get_test_run_key (tr_test_case_file_path row)
                                          (tr_test_case_name row))
             (fun row => if String.eqb (tr_actual_result row) "failed"
                         then changed_date_of pull_request_details (tr_pr_link row)
                         else None)).
  rewrite lookup_empty.
  destruct (filter _ pr_test_runs_data) as [|row rows]; [reflexivity|].
  cbn [default app]. rewrite omap_failed_rows. reflexivity.
Qed.

(** X10. The change history of a path has no entry when no fetched row
    names the path; otherwise it lists, in row order and without removing
    repetitions, the date of the first pull request carrying each such
    row's link, rows whose link has no pull request being skipped. *)
Theorem build_files_changed_history_lookup (pull_request_details : list pr_row)
    (pr_files_changed_data : list file_change_row) (path : string) :
  build_files_changed_history pull_request_details pr_files_changed_data !! path
  = match filter (fun row => files_paths_changed row = path) pr_files_changed_data with
    | [] => None
    | rows =>
        Some (omap (fun row => changed_date_of pull_request_details (fc_pr_link row))
                   rows)
    end.
Proof. apply files_history_lookup. Qed.

(** X11. The failure history of a test case has no entry when no fetched
    row has its key; otherwise it lists, in row order, the date of the
    first pull request carrying the link of each row of that key whose
    result is ["failed"]: a test case that never failed has an empty
    list. *)
Theorem build_test_runs_failure_history_lookup (pull_request_details : list pr_row)
    (pr_test_runs_data : list test_run_row) (key : string) :
  build_test_runs_failure_history pull_request_details pr_test_runs_data !! key
  = match
      filter (fun row => get_test_run_key (tr_test_case_file_path row)
                                          (tr_test_case_name row) = key)
             pr_test_runs_data
    with
    | [] => None
    | rows =>
        Some (omap (fun row => changed_date_of pull_request_details (tr_pr_link row))
                   (filter (fun row => tr_actual_result row = "failed") rows))
    end.
Proof. apply failure_history_lookup. Qed.

Section FetchedHistory.

Lemma changed_date_of_Some pull_request_details link d :
  changed_date_of pull_request_details link = Some d ->
  exists pr, pr ∈ pull_request_details /\ pr_link pr = link /\ date_of_pr pr = d.
Proof.
  unfold changed_date_of. intros H.
  destruct (head (filter (fun pr => pr_link pr = link) pull_request_details))
    as [pr|] eqn:Hhead; [|discriminate].
  injection H as <-.
  apply head_Some_elem_of in Hhead. apply list_elem_of_filter in Hhead as [Hlink Hin].
  exists pr. repeat split; assumption.
Qed.

Lemma changed_date_of_fetched pull_request_details link :
  link ∈ map pr_link pull_request_details ->
  exists d, changed_date_of pull_request_details link = Some d.
Proof.
  intros Hin. apply list_elem_of_fmap in Hin as (pr & -> & Hin).
  unfold changed_date_of.
  destruct (filter (fun pr0 => pr_link pr0 = pr_link pr) pull_request_details)
    as [|pr' rest] eqn:E.
  - exfalso.
    assert (Hpr : pr ∈ filter (fun pr0 => pr_link pr0 = pr_link pr) pull_request_details)
      by (apply list_elem_of_filter; split; [reflexivity|exact Hin]).
    rewrite E in Hpr. inversion Hpr.
  - eexists. reflexivity.
Qed.

(** With links that identify pull requests, a link resolves to the date of
    its pull request. *)
Lemma changed_date_of_unique pull_request_details pr :
  NoDup (map pr_link pull_request_details) ->
  pr ∈ pull_request_details ->
  changed_date_of pull_request_details (pr_link pr) = Some (date_of_pr pr).
Proof.
  unfold changed_date_of.
  induction pull_request_details as [|pr0 prs IH]; intros Hnd Hin; [inversion Hin|].
  cbn [map] in Hnd. apply NoDup_cons in Hnd as [Hnotin Hnd].
  rewrite filter_cons.
  apply elem_of_cons in Hin as [->|Hin].
  - destruct (decide (pr_link pr0 = pr_link pr0)); [reflexivity|contradiction].
  - destruct (decide (pr_link pr0 = pr_link pr)) as [Heq|Hne].
    + exfalso. apply Hnotin. rewrite Heq.
      apply list_elem_of_fmap. exists pr. split; [reflexivity|exact Hin].
    + apply IH; assumption.
Qed.

Lemma NoDup_links_filter (P : pr_row -> Prop) `{forall pr, Decision (P pr)}
    (prs : list pr_row) :
  NoDup (map pr_link prs) -> NoDup (map pr_link (filter P prs)).
Proof.
  induction prs as [|pr prs IH]; intros Hnd; [constructor|].
  cbn [map] in Hnd. apply NoDup_cons in Hnd as [Hnotin Hnd].
  rewrite filter_cons. destruct (decide (P pr)); [|apply IH; exact Hnd].
  cbn [map]. apply NoDup_cons. split; [|apply IH; exact Hnd].
  intros Hin. apply Hnotin.
  apply list_elem_of_fmap in Hin as (pr' & Hlink & Hin).
  apply list_elem_of_filter in Hin as [_ Hin].
  apply list_elem_of_fmap. exists pr'. split; assumption.
Qed.

Lemma NoDup_links_fetched db repo_name checkpoint_date :
  NoDup (map pr_link (repo_pr_details db)) ->
  NoDup (map pr_link (fetch_pull_requests db repo_name checkpoint_date)).
Proof.
  intros Hnd. unfold fetch_pull_requests.
  destruct checkpoint_date; apply NoDup_links_filter; exact Hnd.
Qed.

Lemma length_omap_total {A B} (f : A -> option B) (l : list A) :
  Forall (fun a => is_Some (f a)) l -> List.length (omap f l) = List.length l.
Proof.
  induction 1 as [|a l [b Hb] _ IH]; [reflexivity|].
  cbn [omap list_omap]. rewrite Hb. cbn [List.length]. rewrite IH. reflexivity.
Qed.

End FetchedHistory.

(** X12. In a processing pass every fetched file-change row contributes
    one date: the history of a path has as many dates as there are fetched
    rows naming the path, and each date is the creation date of a fetched
    pull request. *)
Theorem fetched_file_history_one_date_per_row (db : database)
    (pull_request_details : list pr_row) (path : string) :
  List.length
    (default []
       (build_files_changed_history pull_request_details
          (fetch_files_changed db (map pr_link pull_request_details)) !! path))
  = List.length
      (filter (fun row => files_paths_changed row = path)
              (fetch_files_changed db (map pr_link pull_request_details)))
  /\ Forall
       (fun d => exists pr, pr ∈ pull_request_details /\ date_of_pr pr = d)
       (default []
          (build_files_changed_history pull_request_details
             (fetch_files_changed db (map pr_link pull_request_details)) !! path)).
Proof.
  rewrite files_history_lookup.
  set (rows := filter (fun row => files_paths_changed row = path)
                      (fetch_files_changed db (map pr_link pull_request_details))).
  assert (Hrows : Forall (fun row => fc_pr_link row ∈ map pr_link pull_request_details)
                         rows).
  { apply Forall_forall. intros row Hin.
    apply list_elem_of_filter in Hin as [_ Hin].
    unfold fetch_files_changed in Hin.
    apply list_elem_of_filter in Hin as [Hlink _]. exact Hlink. }
  assert (Hlen : List.length
                   (omap (fun row => changed_date_of pull_request_details (fc_pr_link row))
                         rows)
                 = List.length rows).
  { apply length_omap_total. eapply Forall_impl; [exact Hrows|].
    intros row Hlink. cbn beta.
    destruct (changed_date_of_fetched _ _ Hlink) as [d Hd]. rewrite Hd. eexists.
    reflexivity. }
  assert (Hdates : Forall
                     (fun d => exists pr, pr ∈ pull_request_details /\ date_of_pr pr = d)
                     (omap (fun row => changed_date_of pull_request_details
                                         (fc_pr_link row)) rows)).
  { apply Forall_forall. intros d Hd.
    apply list_elem_of_omap in Hd as (row & _ & Hd).
    apply changed_date_of_Some in Hd as (pr & Hin & _ & Hdate).
    exists pr. split; assumption. }
  destruct rows as [|row rows']; [split; [reflexivity|constructor]|].
  cbn [default]. split; [exact Hlen|exact Hdates].
Qed.

(** ** Rows of the dataset *)

Section RowProperties.

Variable strftime : datetime -> string.

(** Every accumulated row is the row of a fetched pull request, one of its
    test-run rows and one of its file-change rows. *)
Lemma feature_rows_elem row pull_request_details pr_files_changed_data
    pr_test_runs_data :
  row ∈ feature_rows strftime pull_request_details pr_files_changed_data
          pr_test_runs_data ->
  exists pr test_row file_row,
    pr ∈ pull_request_details
    /\ test_row ∈ test_runs_of pr pr_test_runs_data
    /\ file_row ∈ file_changes_of pr pr_files_changed_data
    /\ row = feature_row strftime
               (build_files_changed_history pull_request_details pr_files_changed_data)
               (build_test_runs_failure_history pull_request_details pr_test_runs_data)
               (Py.len (file_changes_of pr pr_files_changed_data))
               pr test_row file_row.
Proof.
  unfold feature_rows. intros Hin.
  apply list_elem_of_In, in_flat_map in Hin as (pr & Hpr & Hin).
  rewrite rows_for_pr_closed in Hin.
  apply in_flat_map in Hin as (test_row & Htest & Hin).
  apply in_map_iff in Hin as (file_row & Hrow & Hfile).
  exists pr, test_row, file_row.
  repeat split; try (apply list_elem_of_In; assumption). symmetry. exact Hrow.
Qed.

Lemma common_tokens_nonneg x y : 0 <= calculate_common_tokens x y.
Proof.
  unfold calculate_common_tokens.
  destruct (negb (Py.truthy x) || negb (Py.truthy y)); lia.
Qed.

Lemma timedelta_nonneg n : 0 <= n -> 0 <= timedelta n.
Proof. unfold timedelta, microseconds_per_day. lia. Qed.

(** X13. Every accumulated row keeps its numbers in range: the label is 0
    or 1, the counters are non-negative and grow with the window, the
    author and token counts are non-negative, the distance lies between 2
    and 1000, and [num_files_changed] is at least 1. *)
Theorem feature_rows_ranges (pull_request_details : list pr_row)
    (pr_files_changed_data : list file_change_row)
    (pr_test_runs_data : list test_run_row) :
  Forall
    (fun row =>
       exists label f7 f14 f28 c3 c14 authors common distance files,
         dict_get "actual_result" row = Some (VInt label)
         /\ dict_get "failures_7_days" row = Some (VInt f7)
         /\ dict_get "failures_14_days" row = Some (VInt f14)
         /\ dict_get "failures_28_days" row = Some (VInt f28)
         /\ dict_get "changes_3_days" row = Some (VInt c3)
         /\ dict_get "changes_14_days" row = Some (VInt c14)
         /\ dict_get "distinct_author" row = Some (VInt authors)
         /\ dict_get "common_tokens" row = Some (VInt common)
         /\ dict_get "minimal_distance" row = Some (VInt distance)
         /\ dict_get "num_files_changed" row = Some (VInt files)
         /\ (label = 0 \/ label = 1)
         /\ 0 <= f7 <= f14 /\ f14 <= f28
         /\ 0 <= c3 <= c14
         /\ 0 <= authors
         /\ 0 <= common
         /\ 2 <= distance <= 1000
         /\ 1 <= files)
    (feature_rows strftime pull_request_details pr_files_changed_data
                  pr_test_runs_data).
Proof.
  apply Forall_forall. intros row Hin.
  apply feature_rows_elem in Hin as (pr & test_row & file_row & _ & _ & Hfile & ->).
  eexists _, _, _, _, _, _, _, _, _, _.
  do 10 (split; [reflexivity|]).
  split.
  { unfold label_of. destruct (String.eqb _ _); [left|right]; reflexivity. }
  split.
  { split; [apply count_after_range|].
    apply count_after_mono. pose proof (timedelta_mono 7 14). lia. }
  split.
  { apply count_after_mono. pose proof (timedelta_mono 14 28). lia. }
  split.
  { split; [apply count_on_or_after_range|].
    apply count_on_or_after_mono. pose proof (timedelta_mono 3 14). lia. }
  split; [unfold Py.len; lia|].
  split; [apply common_tokens_nonneg|].
  split; [apply minimal_distance_range|].
  unfold Py.len. destruct (file_changes_of pr pr_files_changed_data);
    [inversion Hfile|cbn [List.length]; lia].
Qed.

(** X14. In a processing pass every row belongs to one fetched pull request
    of the repository, inside the lookback when there is a checkpoint: it
    carries that pull request's link, formatted date and number of authors,
    and it pairs a test run and a file change stored under that same
    link. *)
Theorem feature_rows_provenance (db : database) (repo_name : string)
    (checkpoint_date : option datetime) :
  Forall
    (fun row =>
       exists pr test_row file_row,
         pr ∈ repo_pr_details db
         /\ pr_repo_name pr = repo_name
         /\ match checkpoint_date with
            | Some checkpoint => start_date checkpoint <= date_of_pr pr
            | None => True
            end
         /\ test_row ∈ pr_to_test_runs_mapping db
         /\ tr_pr_link test_row = pr_link pr
         /\ file_row ∈ pr_to_files_changed_mapping db
         /\ fc_pr_link file_row = pr_link pr
         /\ dict_get "pr_link" row = Some (VStr (pr_link pr))
         /\ dict_get "date_of_pr" row = Some (VStr (strftime (date_of_pr pr)))
         /\ dict_get "distinct_author" row
            = Some (VInt (Py.len (default [] (list_of_authors pr))))
         /\ dict_get "test_case_file_path" row
            = Some (VStr (tr_test_case_file_path test_row))
         /\ dict_get "test_case_name" row = Some (VStr (tr_test_case_name test_row))
         /\ dict_get "actual_result" row
            = Some (VInt (label_of (tr_actual_result test_row)))
         /\ dict_get "file_name" row
            = Some (VStr (fst (Py.splitext (files_paths_changed file_row)))))
    (feature_rows strftime
       (fetch_pull_requests db repo_name checkpoint_date)
       (fetch_files_changed db
          (map pr_link (fetch_pull_requests db repo_name checkpoint_date)))
       (fetch_test_runs db
          (map pr_link (fetch_pull_requests db repo_name checkpoint_date)))).
Proof.
  apply Forall_forall. intros row Hin.
  apply feature_rows_elem in Hin as (pr & test_row & file_row & Hpr & Htest & Hfile & ->).
  exists pr, test_row, file_row.
  apply list_elem_of_filter in Htest as [Htlink Htest].
  apply list_elem_of_filter in Htest as [_ Htest].
  apply list_elem_of_filter in Hfile as [Hflink Hfile].
  apply list_elem_of_filter in Hfile as [_ Hfile].
  assert (Hfetched : pr ∈ repo_pr_details db /\ pr_repo_name pr = repo_name
                     /\ match checkpoint_date with
                        | Some checkpoint => start_date checkpoint <= date_of_pr pr
                        | None => True
                        end).
  { unfold fetch_pull_requests in Hpr. destruct checkpoint_date as [checkpoint|];
      apply list_elem_of_filter in Hpr; tauto. }
  destruct Hfetched as (Hin & Hrepo & Hdate).
  repeat (split; [first [assumption|reflexivity]|]). reflexivity.
Qed.

(** X15. With links that identify pull requests and results that are
    ["passed"] or ["failed"], a pull request's own events are counted in
    its rows: every row has [changes_3_days] at least 1, and every row
    labelled 1 has [failures_7_days] at least 1. *)
Theorem own_events_counted (db : database) (repo_name : string)
    (checkpoint_date : option datetime) :
  NoDup (map pr_link (repo_pr_details db)) ->
  Forall (fun row => tr_actual_result row = "passed" \/ tr_actual_result row = "failed")
         (pr_to_test_runs_mapping db) ->
  Forall
    (fun row =>
       exists label f7 c3,
         dict_get "actual_result" row = Some (VInt label)
         /\ dict_get "failures_7_days" row = Some (VInt f7)
         /\ dict_get "changes_3_days" row = Some (VInt c3)
         /\ 1 <= c3
         /\ (label = 1 -> 1 <= f7))
    (feature_rows strftime
       (fetch_pull_requests db repo_name checkpoint_date)
       (fetch_files_changed db
          (map pr_link (fetch_pull_requests db repo_name checkpoint_date)))
       (fetch_test_runs db
          (map pr_link (fetch_pull_requests db repo_name checkpoint_date)))).
Proof.
  intros Hnd Hresults.
  apply (NoDup_links_fetched db repo_name checkpoint_date) in Hnd.
  set (prs := fetch_pull_requests db repo_name checkpoint_date) in *.
  apply Forall_forall. intros row Hin.
  apply feature_rows_elem in Hin as (pr & test_row & file_row & Hpr & Htest & Hfile & ->).
  pose proof (changed_date_of_unique prs pr Hnd Hpr) as Hdate.
  eexists _, _, _. do 3 (split; [reflexivity|]).
  apply list_elem_of_filter in Htest as [Htlink Htest].
  apply list_elem_of_filter in Hfile as [Hflink Hfile].
  split.
  - apply (count_on_or_after_elem _ (date_of_pr pr));
      [|pose proof (timedelta_nonneg 3); lia].
    rewrite files_history_lookup.
    assert (Hrow : file_row ∈ filter (fun row => files_paths_changed row
                                                = files_paths_changed file_row)
                                     (fetch_files_changed db (map pr_link prs)))
      by (apply list_elem_of_filter; split; [reflexivity|exact Hfile]).
    destruct (filter _ (fetch_files_changed db (map pr_link prs))) as [|r rs] eqn:E;
      [inversion Hrow|].
    cbn [default]. apply list_elem_of_omap. exists file_row.
    split; [exact Hrow|]. rewrite Hflink. exact Hdate.
  - intros Hlabel.
    assert (Hfailed : tr_actual_result test_row = "failed").
    { assert (Hstored : test_row ∈ pr_to_test_runs_mapping db).
      { unfold fetch_test_runs in Htest.
        apply list_elem_of_filter in Htest as [_ Htest]. exact Htest. }
      rewrite Forall_forall in Hresults.
      destruct (Hresults test_row Hstored) as [Hpassed|Hf]; [|exact Hf].
      unfold label_of in Hlabel. rewrite Hpassed in Hlabel. discriminate Hlabel. }
    apply (count_after_elem _ (date_of_pr pr));
      [|unfold timedelta, microseconds_per_day; lia].
    rewrite failure_history_lookup.
    assert (Hrow : test_row
                   ∈ filter (fun row => get_test_run_key (tr_test_case_file_path row)
                                                         (tr_test_case_name row)
                                        = get_test_run_key
                                            (tr_test_case_file_path test_row)
                                            (tr_test_case_name test_row))
                            (fetch_test_runs db (map pr_link prs)))
      by (apply list_elem_of_filter; split; [reflexivity|exact Htest]).
    destruct (filter _ (fetch_test_runs db (map pr_link prs))) as [|r rs] eqn:E;
      [inversion Hrow|].
    cbn [default]. apply list_elem_of_omap. exists test_row.
    split; [|rewrite Htlink; exact Hdate].
    apply list_elem_of_filter. split; [exact Hfailed|exact Hrow].
Qed.

End RowProperties.

Lemma own_events_counted_witness :
  Forall
    (fun row =>
       exists label f7 c3,
         dict_get "actual_result" row = Some (VInt label)
         /\ dict_get "failures_7_days" row = Some (VInt f7)
         /\ dict_get "changes_3_days" row = Some (VInt c3)
         /\ 1 <= c3
         /\ (label = 1 -> 1 <= f7))
    (feature_rows (fun _ => "")
       (fetch_pull_requests two_by_three_db "r" None)
       (fetch_files_changed two_by_three_db
          (map pr_link (fetch_pull_requests two_by_three_db "r" None)))
       (fetch_test_runs two_by_three_db
          (map pr_link (fetch_pull_requests two_by_three_db "r" None)))).
Proof.
  apply (own_events_counted (fun _ => "") two_by_three_db "r" None).
  - apply (bool_decide_unpack _). vm_compute. exact I.
  - constructor; [right; reflexivity|].
    constructor; [left; reflexivity|]. constructor.
Defined.

(** ** Dataset assembler and entry point *)

Section PassProperties.

Variable strftime : datetime -> string.


(** One turn of [main] in the model: the trainer is called exactly when
    the fetch is not empty. *)
Lemma main_repo_cases db timestamp w repo_name :
  exists fs',
    main_repo strftime db timestamp w repo_name
    = Returned
        {| files := fs';
           trainer_calls :=
             (trainer_calls w
              ++ match fetch_pull_requests db repo_name
                         (latest_checkpoint db repo_name) with
                 | [] => []
                 | _ :: _ =>
                     [(repo_name,
                       ("csv/" ++ repo_name ++ "_" ++ timestamp ++ ".csv")%string)]
                 end)%list |}.
Proof.
  unfold main_repo.
  pose proof (process_data_for_repo_cases strftime db timestamp repo_name
                (latest_checkpoint db repo_name) (files w)) as Hcases.
  cbn zeta in Hcases. rewrite Hcases. clear Hcases.
  destruct (fetch_pull_requests db repo_name (latest_checkpoint db repo_name))
    as [|pr prs].
  { eexists. cbn [Py.truthy]. rewrite app_nil_r. reflexivity. }
  destruct (feature_rows strftime (pr :: prs) _ _) as [|row rows];
    eexists; reflexivity.
Qed.

(** X18. In one turn of [main] whose processing pass returns, the trainer
    is invoked exactly when the fetch bounded by the repository's latest
    checkpoint is not empty, whether or not any row was accumulated, and
    it is invoked on [csv/<repo>_<timestamp>.csv]; with an empty fetch no
    call is made. The calls made before the turn are kept. *)
Theorem main_repo_trainer_call (db : database) (timestamp repo_name : string)
    (w w' : world) :
  main_repo strftime db timestamp w repo_name = Returned w' ->
  (fetch_pull_requests db repo_name (latest_checkpoint db repo_name) = [] ->
   trainer_calls w' = trainer_calls w)
  /\ (fetch_pull_requests db repo_name (latest_checkpoint db repo_name) <> [] ->
      trainer_calls w'
      = (trainer_calls w
         ++ [(repo_name,
              ("csv/" ++ repo_name ++ "_" ++ timestamp ++ ".csv")%string)])%list).
Proof.
  intros Hturn.
  destruct (main_repo_cases db timestamp w repo_name) as [fs' Hcases].
  rewrite Hcases in Hturn. injection Hturn as <-. cbn [trainer_calls].
  destruct (fetch_pull_requests db repo_name (latest_checkpoint db repo_name)).
  - split; [intros _; apply app_nil_r|]. intros Hne. contradiction Hne. reflexivity.
  - split; [discriminate|]. intros _. reflexivity.
Qed.

End PassProperties.


Lemma main_repo_trainer_call_witness :
  trainer_calls {| files := ∅; trainer_calls := [("r", "csv/r_20240101000000.csv")] |}
  = (trainer_calls {| files := ∅; trainer_calls := [] |}
     ++ [("r", ("csv/" ++ "r" ++ "_" ++ "20240101000000" ++ ".csv")%string)])%list.
Proof.
  refine (proj2 (main_repo_trainer_call (fun _ => "") lonely_pr_db "20240101000000" "r"
                   {| files := ∅; trainer_calls := [] |}
                   {| files := ∅;
                      trainer_calls := [("r", "csv/r_20240101000000.csv")] |} _) _).
  - vm_compute. reflexivity.
  - vm_compute. discriminate.
Defined.

(** ** Incremental fetch *)

(** X19. A later checkpoint narrows the fetch: what is fetched under the
    later one is what the earlier one fetches, cut at the later bound; and
    any bounded fetch is the unbounded one cut at its bound. *)
Theorem fetch_pull_requests_narrows (db : database) (repo_name : string)
    (checkpoint1 checkpoint2 : datetime) :
  checkpoint1 <= checkpoint2 ->
  fetch_pull_requests db repo_name (Some checkpoint2)
  = filter (fun pr => start_date checkpoint2 <= date_of_pr pr)
           (fetch_pull_requests db repo_name (Some checkpoint1))
  /\ fetch_pull_requests db repo_name (Some checkpoint1)
     = filter (fun pr => start_date checkpoint1 <= date_of_pr pr)
              (fetch_pull_requests db repo_name None)
  /\ (forall pr, pr ∈ fetch_pull_requests db repo_name (Some checkpoint2) ->
                 pr ∈ fetch_pull_requests db repo_name (Some checkpoint1))
  /\ (forall pr, pr ∈ fetch_pull_requests db repo_name (Some checkpoint1) ->
                 pr ∈ fetch_pull_requests db repo_name None).
Proof.
  intros Hle. unfold fetch_pull_requests.
  assert (H21 :
    filter (fun pr => pr_repo_name pr = repo_name
                      /\ start_date checkpoint2 <= date_of_pr pr)
           (repo_pr_details db)
    = filter (fun pr => start_date checkpoint2 <= date_of_pr pr)
        (filter (fun pr => pr_repo_name pr = repo_name
                           /\ start_date checkpoint1 <= date_of_pr pr)
                (repo_pr_details db))).
  { rewrite list_filter_filter. apply list_filter_iff. intros pr.
    unfold start_date in *. split; [|tauto]. intros [Hr Hd]. repeat split; [lia|exact Hr|lia]. }
  assert (H10 :
    filter (fun pr => pr_repo_name pr = repo_name
                      /\ start_date checkpoint1 <= date_of_pr pr)
           (repo_pr_details db)
    = filter (fun pr => start_date checkpoint1 <= date_of_pr pr)
        (filter (fun pr => pr_repo_name pr = repo_name) (repo_pr_details db))).
  { rewrite list_filter_filter. apply list_filter_iff. intros pr. tauto. }
  split; [exact H21|]. split; [exact H10|].
  split.
  - intros pr Hin. rewrite H21 in Hin. apply list_elem_of_filter in Hin as [_ Hin].
    exact Hin.
  - intros pr Hin. rewrite H10 in Hin. apply list_elem_of_filter in Hin as [_ Hin].
    exact Hin.
Qed.

Lemma fetch_pull_requests_narrows_witness :
  fetch_pull_requests checkpointed_db "r" (Some (timedelta 100))
  = filter (fun pr => start_date (timedelta 100) <= date_of_pr pr)
           (fetch_pull_requests checkpointed_db "r" (Some (timedelta 90))).
Proof.
  apply (fetch_pull_requests_narrows checkpointed_db "r" (timedelta 90) (timedelta 100)).
  unfold timedelta, microseconds_per_day. lia.
Defined.

(** ** Checkpoints across runs *)

Lemma sql_max_snoc (column : list Z) (d : Z) :
  sql_max (column ++ [d])%list
  = Some (match sql_max column with
          | Some m => Z.max m d
          | None => d
          end).
Proof.
  destruct column as [|x rest]; [reflexivity|].
  cbn [app sql_max]. rewrite fold_left_app. reflexivity.
Qed.

(** X20. Once the trainer has recorded a checkpoint for a repository, the
    repository's resolved checkpoint is the later of the previous one and
    the new one, so the lookback bound never moves backwards; the resolved
    checkpoints of the other repositories and the fetches are as before. *)
Theorem insert_checkpoint_latest (db : database) (repo_name other : string)
    (checkpoint_date : datetime) (bound : option datetime) :
  other <> repo_name ->
  latest_checkpoint (insert_checkpoint db repo_name checkpoint_date) repo_name
  = Some (match latest_checkpoint db repo_name with
          | Some previous => Z.max previous checkpoint_date
          | None => checkpoint_date
          end)
  /\ latest_checkpoint (insert_checkpoint db repo_name checkpoint_date) other
     = latest_checkpoint db other
  /\ fetch_pull_requests (insert_checkpoint db repo_name checkpoint_date) other bound
     = fetch_pull_requests db other bound
  /\ fetch_pull_requests (insert_checkpoint db repo_name checkpoint_date) repo_name bound
     = fetch_pull_requests db repo_name bound.
Proof.
  intros Hother. unfold latest_checkpoint, insert_checkpoint.
  cbn [checkpoint_details].
  rewrite !filter_app, !filter_cons, !filter_nil. cbn [cp_repo_name].
  destruct (decide (repo_name = repo_name)) as [_|Hne]; [|contradiction].
  destruct (decide (repo_name = other)) as [Heq|_]; [congruence|].
  rewrite map_app, app_nil_r. cbn [map date_of_checkpoint].
  rewrite sql_max_snoc.
  repeat split; reflexivity.
Qed.

Lemma insert_checkpoint_latest_witness :
  latest_checkpoint (insert_checkpoint checkpointed_db "r" (timedelta 120)) "r"
  = Some (match latest_checkpoint checkpointed_db "r" with
          | Some previous => Z.max previous (timedelta 120)
          | None => timedelta 120
          end).
Proof.
  apply (insert_checkpoint_latest checkpointed_db "r" "s" (timedelta 120) None).
  discriminate.
Defined.

(** ** Collections of changed files *)

Lemma foldr_min_le_init (m : Z) (l : list Z) : foldr Z.min m l <= m.
Proof. induction l as [|x l IH]; cbn [foldr]; lia. Qed.

Lemma foldr_min_app (m : Z) (l l' : list Z) :
  foldr Z.min m (l ++ l')%list = Z.min (foldr Z.min m l) (foldr Z.min m l').
Proof.
  induction l as [|x l IH]; cbn [app foldr].
  - pose proof (foldr_min_le_init m l'). lia.
  - rewrite IH. lia.
Qed.

(** X21. For collections of entries the distance is a minimum: the
    distance to two collections put together is the smaller of the two
    distances, and the distance to a single entry with a non-empty file
    name is the distance to that file name. *)
Theorem calculate_minimal_distance_entries_min (l1 l2 : list changed_file_entry)
    (test_file_path : option string) (c : ascii) (name : string) :
  calculate_minimal_distance (Entries (l1 ++ l2)) test_file_path
  = Z.min (calculate_minimal_distance (Entries l1) test_file_path)
          (calculate_minimal_distance (Entries l2) test_file_path)
  /\ calculate_minimal_distance (Entries [{| filename := String c name |}])
                                test_file_path
     = calculate_minimal_distance (OnePath (String c name)) test_file_path.
Proof.
  split; [|reflexivity].
  pose proof (minimal_distance_range (Entries l1) test_file_path) as H1.
  pose proof (minimal_distance_range (Entries l2) test_file_path) as H2.
  destruct (Py.truthy test_file_path) eqn:Ht.
  - destruct l1 as [|e1 l1].
    { cbn [app]. rewrite (minimal_distance_falsy_changed (Entries []))
        by reflexivity. lia. }
    destruct l2 as [|e2 l2].
    { rewrite app_nil_r. rewrite (minimal_distance_falsy_changed (Entries []))
        by reflexivity. lia. }
    unfold calculate_minimal_distance. rewrite Ht.
    cbn [app changed_truthy negb orb].
    rewrite !fold_left_min.
    change (e1 :: (l1 ++ e2 :: l2))%list with ((e1 :: l1) ++ (e2 :: l2))%list.
    rewrite map_app. apply foldr_min_app.
  - rewrite !minimal_distance_falsy_test by exact Ht. reflexivity.
Qed.

(** ** Trainer interface *)

(** X22. Every column the trainer reads is a column of a written dataset
    file; [distinct_author] is written but is not among the features the
    trainer selects. *)
Theorem trainer_columns_written (strftime : datetime -> string) (db : database)
    (timestamp repo_name : string) (checkpoint_date : option datetime)
    (fs fs' : gmap string csv_file) (returned : option string) (path : string)
    (file : csv_file) :
  process_data_for_repo strftime db timestamp repo_name checkpoint_date fs
  = Returned (returned, fs') ->
  fs !! path = None ->
  fs' !! path = Some file ->
  Forall (fun column => column ∈ csv_header file) trainer_columns
  /\ "distinct_author" ∈ csv_header file
  /\ "distinct_author" ∉ feature_cols.
Proof.
  intros Hrun Hbefore Hafter.
  rewrite process_data_for_repo_cases in Hrun. cbn zeta in Hrun.
  assert (Hheader : csv_header file = dataset_columns).
  { destruct (fetch_pull_requests db repo_name checkpoint_date) as [|pr prs].
    { injection Hrun as _ <-. congruence. }
    destruct (feature_rows strftime (pr :: prs) _ _) as [|row rows].
    { injection Hrun as _ <-. congruence. }
    injection Hrun as _ <-.
    destruct (decide (path = ("csv/" ++ repo_name ++ "_" ++ timestamp ++ ".csv")))
      as [->|Hne].
    - rewrite lookup_insert_eq in Hafter. injection Hafter as <-. reflexivity.
    - rewrite lookup_insert_ne in Hafter by congruence. congruence. }
  rewrite Hheader.
  split; [|split].
  - apply (bool_decide_unpack _). vm_compute. exact I.
  - apply (bool_decide_unpack _). vm_compute. exact I.
  - apply (bool_decide_unpack _). vm_compute. exact I.
Qed.

Lemma trainer_columns_written_witness :
  Forall (fun column => column ∈ dataset_columns) trainer_columns
  /\ "distinct_author" ∈ dataset_columns
  /\ "distinct_author" ∉ feature_cols.
Proof.
  apply (trainer_columns_written (fun _ => "") two_by_three_db "20240101000000" "r"
           None ∅
           (<["csv/r_20240101000000.csv" :=
                {| csv_header := dataset_columns;
                   csv_rows :=
                     map (map snd)
                       (feature_rows (fun _ => "")
                          (fetch_pull_requests two_by_three_db "r" None)
                          (fetch_files_changed two_by_three_db
                             (map pr_link (fetch_pull_requests two_by_three_db "r" None)))
                          (fetch_test_runs two_by_three_db
                             (map pr_link
                                (fetch_pull_requests two_by_three_db "r" None)))) |}]> ∅)
           (Some "csv/r_20240101000000.csv") "csv/r_20240101000000.csv"
           {| csv_header := dataset_columns;
              csv_rows :=
                map (map snd)
                  (feature_rows (fun _ => "")
                     (fetch_pull_requests two_by_three_db "r" None)
                     (fetch_files_changed two_by_three_db
                        (map pr_link (fetch_pull_requests two_by_three_db "r" None)))
                     (fetch_test_runs two_by_three_db
                        (map pr_link
                           (fetch_pull_requests two_by_three_db "r" None)))) |}).
  - vm_compute. reflexivity.
  - apply lookup_empty.
  - apply lookup_insert_eq.
Defined.

(** ** Windows without an upper end *)

Lemma count_after_all bound (l : list Z) :
  Forall (fun d => bound < d) l -> count_after bound l = Py.len l.
Proof.
  induction 1 as [|d l Hd _ IH]; [reflexivity|].
  rewrite count_after_cons, IH. unfold Py.len. cbn [List.length].
  destruct (Z.gtb_spec d bound); lia.
Qed.

Lemma count_on_or_after_all bound (l : list Z) :
  Forall (fun d => bound <= d) l -> count_on_or_after bound l = Py.len l.
Proof.
  induction 1 as [|d l Hd _ IH]; [reflexivity|].
  rewrite count_on_or_after_cons, IH. unfold Py.len. cbn [List.length].
  destruct (Z.geb_spec d bound); lia.
Qed.

(** X23. The windows are bounded below only: dates on or after the PR date,
    however far in the future, are counted by every counter. *)
Theorem synthesizers_count_later_dates (test_run : test_run) (file_path : string)
    (pr_date : datetime) (dates : list datetime) :
  Forall (fun d => pr_date <= d) dates ->
  dict_get "failures_7_days" (process_test_run test_run pr_date dates)
    = Some (VInt (Py.len dates))
  /\ dict_get "failures_14_days" (process_test_run test_run pr_date dates)
     = Some (VInt (Py.len dates))
  /\ dict_get "failures_28_days" (process_test_run test_run pr_date dates)
     = Some (VInt (Py.len dates))
  /\ dict_get "changes_3_days" (process_file_change file_path pr_date dates)
     = Some (VInt (Py.len dates))
  /\ dict_get "changes_14_days" (process_file_change file_path pr_date dates)
     = Some (VInt (Py.len dates)).
Proof.
  intros Hlater.
  rewrite process_test_run_closed, process_file_change_closed.
  assert (Hafter : forall w, 0 < w ->
             count_after (pr_date - timedelta w) dates = Py.len dates).
  { intros w Hw. apply count_after_all. eapply Forall_impl; [exact Hlater|].
    intros d Hd. cbn beta in *. unfold timedelta, microseconds_per_day. lia. }
  assert (Hon : forall w, 0 < w ->
             count_on_or_after (pr_date - timedelta w) dates = Py.len dates).
  { intros w Hw. apply count_on_or_after_all. eapply Forall_impl; [exact Hlater|].
    intros d Hd. cbn beta in *. unfold timedelta, microseconds_per_day. lia. }
  cbn [test_features file_features dict_get String.eqb Ascii.eqb Bool.eqb].
  rewrite !Hafter, !Hon by lia. repeat split; reflexivity.
Qed.

Lemma synthesizers_count_later_dates_witness :
  dict_get "failures_7_days"
    (process_test_run
       {| test_case_file_path := "t.py"; test_case_name := "t"; actual_result := "passed" |}
       (timedelta 10) [timedelta 10; timedelta 400])
  = Some (VInt (Py.len [timedelta 10; timedelta 400])).
Proof.
  apply (synthesizers_count_later_dates
           {| test_case_file_path := "t.py"; test_case_name := "t";
              actual_result := "passed" |}
           "a.py" (timedelta 10) [timedelta 10; timedelta 400]).
  constructor; [unfold timedelta, microseconds_per_day; lia|].
  constructor; [unfold timedelta, microseconds_per_day; lia|]. constructor.
Defined.
